(** * Course curriculum model and consumption engine

    A shallow embedding of the course-consumption front end:
    - [CourseDetail.tsx]: [formatDuration], the [useCourseLogic] hook
      (load / initialise, [toggleSection], [selectLesson]) and the
      [QuizModule] component (answer selection, submission, grading);
    - [InactiveCourses.tsx] / [ActivrCourse.tsx]: the archived-course
      fetch cycle ([fetchArchivedCourses]) and the [processedCourses]
      lesson count.

    Conventions.  A JavaScript object used as a map ([Record<number, _>])
    is a [gmap nat _]; a [Set<string>] is a [gset string]; an array is a
    [list], read by index with [!!] (out of range: [None], as JavaScript
    yields [undefined]).  Whole-second durations are integers ([Z]);
    [.length] is a [nat].  An optional field is an [option]. *)

From stdpp Require Import gmap strings list fin_maps pretty.

Open Scope string_scope.
Set Warnings "-clear-no-such-hyp".

(** ** JavaScript values that the code branches on *)

Module Js.

(** The values an expression such as [isSub && o?.isCorrect] can take. *)
Inductive val := undefined | boolean (b : bool).

Definition truthy (v : val) : bool :=
  match v with
  | boolean true => true
  | _ => false
  end.

(** [a && b]: the left operand when it is falsy, else the right one. *)
Definition and (a b : val) : val := if truthy a then b else a.

(** Reading a key of an object holding booleans. *)
Definition of_lookup (o : option bool) : val :=
  match o with
  | Some b => boolean b
  | None => undefined
  end.

(** [n || 0] on a number. *)
Definition or0_Z (n : Z) : Z := if bool_decide (n = 0%Z) then 0%Z else n.
Definition or0_nat (n : nat) : nat := if bool_decide (n = 0) then 0 else n.

(** [s || dflt] where [s] is a possibly missing string: the empty string
    and [undefined] are both falsy. *)
Definition or_string (s : option string) (dflt : string) : string :=
  match s with
  | Some m => if bool_decide (m = EmptyString) then dflt else m
  | None => dflt
  end.

(** Truthiness of a possibly [null] string. *)
Definition truthy_string (s : option string) : bool :=
  match s with
  | Some m => negb (bool_decide (m = EmptyString))
  | None => false
  end.

(** [a === i] where [a] may be [undefined] and [i] is a number. *)
Definition strict_eq (a : option nat) (i : nat) : bool :=
  match a with
  | Some j => bool_decide (j = i)
  | None => false
  end.

End Js.

(** ** Curriculum model (section 1 of [CourseDetail.tsx]) *)

Record Resource := { res_id : option string; res_title : string; url : string }.
Record CodeSnippet := { snip_id : option string; language : string; code : string }.
Record QuizOption := { opt_id : option string; text : string; isCorrect : bool }.
Record Quiz := { quiz_id : option string; question : string; options : list QuizOption }.

Record Lesson := {
  lesson_id : string;
  lesson_title : string;
  videoKey : option string;
  videoDuration : Z;
  isFree : bool;
  description : option string;
  resources : option (list Resource);
  codeSnippets : option (list CodeSnippet);
  quizzes : option (list Quiz)
}.

Record Section := { section_id : string; section_title : string; lessons : list Lesson }.

Record Course := {
  course_id : string;
  course_title : string;
  course_description : string;
  sections : list Section;
  updatedAt : string
}.

(** ** Derivation layer *)

(** A number inside a template literal. *)
Definition show (n : Z) : string := pretty n.

(** [formatDuration], [CourseDetail.tsx] lines 51-58.  [Math.floor (a / b)]
    on integers is floor division ([Z.div]); [%] truncates ([Z.rem]). *)
Definition formatDuration (seconds : Z) : string :=
  if bool_decide (seconds = 0%Z) then "0m"
  else
    let h := (seconds `div` 3600)%Z in
    let m := ((seconds `rem` 3600) `div` 60)%Z in
    let s := (seconds `rem` 60)%Z in
    if bool_decide (0 < h)%Z then show h +:+ "h " +:+ show m +:+ "m"
    else show m +:+ "m " +:+ show s +:+ "s".

(** [section.lessons.reduce((acc, l) => acc + (l.videoDuration || 0), 0)],
    [CourseDetail.tsx] line 499. *)
Definition sumDuration (ls : list Lesson) : Z :=
  foldl (λ acc l, (acc + Js.or0_Z (videoDuration l))%Z) 0%Z ls.

(** The duration label of a lesson sequence, line 499. *)
Definition totalDuration (ls : list Lesson) : string :=
  formatDuration (sumDuration ls).

(** [course.sections?.reduce((acc, sec) => acc + sec.lessons.length, 0) || 0],
    [processedCourses] in [ActivrCourse.tsx] line 48 and
    [InactiveCourses.tsx] line 63. *)
Definition totalLessons (c : Course) : nat :=
  Js.or0_nat (foldl (λ acc sec, acc + length (lessons sec)) 0 (sections c)).

(** The same reduction without the [|| 0], [CourseDetail.tsx] line 483. *)
Definition headerLessonCount (c : Course) : nat :=
  foldl (λ acc s, acc + length (lessons s)) 0 (sections c).

(** The duration format in the words of the specification: hours and
    minutes when the hour part is positive, minutes and seconds otherwise,
    ["0m"] for a zero total. *)
Definition durationLabel_spec (total : Z) : string :=
  if bool_decide (total = 0)%Z then "0m"
  else if bool_decide (0 < total `div` 3600)%Z
       then pretty (total `div` 3600)%Z +:+ "h "
            +:+ pretty ((total `rem` 3600) `div` 60)%Z +:+ "m"
       else pretty ((total `rem` 3600) `div` 60)%Z +:+ "m "
            +:+ pretty (total `rem` 60)%Z +:+ "s".

(** Sum of the [videoDuration] fields, and of the lesson-array lengths. *)
Definition secondsOf (ls : list Lesson) : Z :=
  foldr (λ l acc, (videoDuration l + acc)%Z) 0%Z ls.

Definition lessonArrayLengths (ss : list Section) : nat :=
  sum_list (length ∘ lessons <$> ss).

Definition videoLesson (d : Z) : Lesson :=
  {| lesson_id := "l"; lesson_title := "Lesson"; videoKey := None;
     videoDuration := d; isFree := false; description := None;
     resources := None; codeSnippets := None; quizzes := None |}.

(** ** The collaborator boundary *)

(** How an awaited request settles. *)
Inductive Settled (A E : Type) := resolved (a : A) | rejected (e : E).
Arguments resolved {A E} a.
Arguments rejected {A E} e.

(** The part of a request error the code reads: [err.response?.data?.message]. *)
Record ResponseData := { message : option string }.
Record AxiosResponse := { data : option ResponseData }.
Record AxiosError := { err_message : string; response : option AxiosResponse }.

Definition responseMessage (err : AxiosError) : option string :=
  match response err with
  | Some resp =>
      match data resp with
      | Some body => message body
      | None => None
      end
  | None => None
  end.

(** ** Quiz assessment engine: [QuizModule], [CourseDetail.tsx] lines 186-253 *)

Module QuizModule.

(** The two [useState] cells of the component. *)
Record State := { answers : gmap nat nat; submitted : gmap nat bool }.

(** [useState({})] twice: the state of a freshly mounted instance. *)
Definition mount : State := {| answers := ∅; submitted := ∅ |}.

(** [const selected = answers[qIdx]; const isSub = submitted[qIdx];] *)
Definition selected (st : State) (qIdx : nat) : option nat := answers st !! qIdx.
Definition isSub (st : State) (qIdx : nat) : Js.val := Js.of_lookup (submitted st !! qIdx).

(** [handleSelect], lines 190-192. *)
Definition handleSelect (qIdx oIdx : nat) (st : State) : State :=
  if negb (Js.truthy (isSub st qIdx))
  then {| answers := <[qIdx := oIdx]> (answers st); submitted := submitted st |}
  else st.

(** [setSubmitted(prev => ({ ...prev, [qIdx]: true }))], line 239. *)
Definition submit (qIdx : nat) (st : State) : State :=
  {| answers := answers st; submitted := <[qIdx := true]> (submitted st) |}.

(** [quiz.options[selected]?.isCorrect]: reading past the end of the
    array, or at [undefined], yields [undefined], which [?.] passes on. *)
Definition selectedFlag (quiz : Quiz) (sel : option nat) : Js.val :=
  match sel with
  | Some i =>
      match options quiz !! i with
      | Some o => Js.boolean (isCorrect o)
      | None => Js.undefined
      end
  | None => Js.undefined
  end.

(** [const isCorrect = isSub && quiz.options[selected]?.isCorrect;], line 204. *)
Definition questionIsCorrect (quiz : Quiz) (st : State) (qIdx : nat) : Js.val :=
  Js.and (isSub st qIdx) (selectedFlag quiz (selected st qIdx)).

(** The class chosen for an option button, lines 214-220. *)
Inductive Style := neutral | emerald | rose | violet.

Definition optionStyle (isSub : Js.val) (selected : option nat)
    (opt : QuizOption) (oIdx : nat) : Style :=
  if Js.truthy isSub then
    if isCorrect opt then emerald
    else if Js.strict_eq selected oIdx && negb (isCorrect opt) then rose
    else neutral
  else if Js.strict_eq selected oIdx then violet
  else neutral.

(** The icons of an option button, lines 230-231. *)
Definition showsCheckCircle (isSub : Js.val) (opt : QuizOption) : bool :=
  Js.truthy isSub && isCorrect opt.
Definition showsXCircle (isSub : Js.val) (selected : option nat)
    (opt : QuizOption) (oIdx : nat) : bool :=
  Js.truthy isSub && Js.strict_eq selected oIdx && negb (isCorrect opt).

(** What the learner can do: click an option button or a submit button. *)
Inductive Event := ClickOption (qIdx oIdx : nat) | ClickSubmit (qIdx : nat).

(** An option button exists for each option of each quiz, and is
    [disabled={isSub}] (line 226). *)
Definition optionButtonLive (quizzes : list Quiz) (st : State) (qIdx oIdx : nat) : bool :=
  match quizzes !! qIdx with
  | Some quiz =>
      bool_decide (oIdx < length (options quiz)) && negb (Js.truthy (isSub st qIdx))
  | None => false
  end.

(** The submit button is rendered only when [!isSub] (line 236) and is
    [disabled={selected === undefined}] (line 240). *)
Definition submitButtonLive (quizzes : list Quiz) (st : State) (qIdx : nat) : bool :=
  bool_decide (qIdx < length quizzes)
  && negb (Js.truthy (isSub st qIdx))
  && negb (bool_decide (selected st qIdx = None)).

Definition step (quizzes : list Quiz) (ev : Event) (st : State) : State :=
  match ev with
  | ClickOption qIdx oIdx =>
      if optionButtonLive quizzes st qIdx oIdx then handleSelect qIdx oIdx st else st
  | ClickSubmit qIdx =>
      if submitButtonLive quizzes st qIdx then submit qIdx st else st
  end.

Definition run (quizzes : list Quiz) (evs : list Event) (st : State) : State :=
  foldl (λ st ev, step quizzes ev st) st evs.

End QuizModule.

(** ** Course view: [useCourseLogic] and [CourseDetail] *)

Module CourseDetail.

Inductive Tab := overview | qa | notes.

(** The hook's five state cells, the tab of the main component, and the
    hook state of the [QuizModule] instance when one is mounted. *)
Record View := {
  course : option Course;
  loading : bool;
  error : option string;
  activeLesson : option Lesson;
  expandedSections : gset string;
  activeTab : Tab;
  quizModule : option QuizModule.State
}.

Definition initial : View :=
  {| course := None; loading := true; error := None; activeLesson := None;
     expandedSections := ∅; activeTab := overview; quizModule := None |}.

Definition setCourse (c : Course) (v : View) : View :=
  {| course := Some c; loading := loading v; error := error v;
     activeLesson := activeLesson v; expandedSections := expandedSections v;
     activeTab := activeTab v; quizModule := quizModule v |}.
Definition setLoading (b : bool) (v : View) : View :=
  {| course := course v; loading := b; error := error v;
     activeLesson := activeLesson v; expandedSections := expandedSections v;
     activeTab := activeTab v; quizModule := quizModule v |}.
Definition setError (e : option string) (v : View) : View :=
  {| course := course v; loading := loading v; error := e;
     activeLesson := activeLesson v; expandedSections := expandedSections v;
     activeTab := activeTab v; quizModule := quizModule v |}.
Definition setActiveLesson (l : Lesson) (v : View) : View :=
  {| course := course v; loading := loading v; error := error v;
     activeLesson := Some l; expandedSections := expandedSections v;
     activeTab := activeTab v; quizModule := quizModule v |}.
Definition setExpandedSections (s : gset string) (v : View) : View :=
  {| course := course v; loading := loading v; error := error v;
     activeLesson := activeLesson v; expandedSections := s;
     activeTab := activeTab v; quizModule := quizModule v |}.
Definition withQuizModule (q : option QuizModule.State) (v : View) : View :=
  {| course := course v; loading := loading v; error := error v;
     activeLesson := activeLesson v; expandedSections := expandedSections v;
     activeTab := activeTab v; quizModule := q |}.

(** The component returns the skeleton while [loading] and the error
    screen when [error || !course] (lines 317-327). *)
Definition mainViewRendered (v : View) : bool :=
  negb (loading v) && negb (Js.truthy_string (error v))
  && match course v with Some _ => true | None => false end.

(** [activeLesson?.quizzes && activeLesson.quizzes.length > 0], line 451. *)
Definition hasQuizzes (l : option Lesson) : bool :=
  match l with
  | Some lesson =>
      match quizzes lesson with
      | Some qs => bool_decide (0 < length qs)
      | None => false
      end
  | None => false
  end.

(** Whether [<QuizModule quizzes={activeLesson.quizzes} />] is in the
    rendered tree (lines 417, 451-453). *)
Definition quizBlockRendered (v : View) : bool :=
  mainViewRendered v
  && match activeTab v with overview => true | _ => false end
  && hasQuizzes (activeLesson v).

(** Re-rendering after a state update.  The [QuizModule] element sits at
    a fixed position of the overview pane and carries no [key], so React
    keeps the same instance across renders: an instance that stays in the
    tree keeps its [useState] cells, one that enters the tree starts from
    [useState({})], and one that leaves it is discarded with its state. *)
Definition render (v : View) : View :=
  withQuizModule
    (if quizBlockRendered v
     then Some (default QuizModule.mount (quizModule v))
     else None) v.

(** The initialisation block of the load effect, lines 85-91. *)
Definition initialize (d : Course) (v : View) : View :=
  match sections d with
  | firstSection :: _ =>
      let v' := setExpandedSections {[ section_id firstSection ]} v in
      match lessons firstSection with
      | l :: _ => setActiveLesson l v'
      | [] => v'
      end
  | [] => v
  end.

(** The load effect, lines 74-103, in two parts: up to the [await], and
    the continuation once [fetchCourseById] has settled.  [id] is the
    route parameter, [isMounted] the flag the clean-up clears. *)
Definition load_start (v : View) : View := render (setLoading true v).

Definition load_settle (id : option string) (isMounted : bool)
    (r : Settled (option Course) AxiosError) (v : View) : View :=
  let thrown := match id with None => true | Some _ => false end in
  let v1 :=
    match thrown, r with
    | false, resolved fetched =>
        match isMounted, fetched with
        | true, Some d => initialize d (setCourse d v)
        | true, None => setError (Some "Course not found.") v
        | false, _ => v
        end
    | _, _ =>
        if isMounted then setError (Some "Failed to load course.") v else v
    end in
  render (if isMounted then setLoading false v1 else v1).

(** The updater of [toggleSection], lines 106-111. *)
Definition toggleUpdater (sectionId : string) (prev : gset string) : gset string :=
  if bool_decide (sectionId ∈ prev) then prev ∖ {[ sectionId ]}
  else prev ∪ {[ sectionId ]}.

Definition toggleSection (sectionId : string) (v : View) : View :=
  render (setExpandedSections (toggleUpdater sectionId (expandedSections v)) v).

(** [selectLesson], lines 114-117 (the scroll is outside the state). *)
Definition selectLesson (lesson : Lesson) (v : View) : View :=
  render (setActiveLesson lesson v).

(** A click inside the mounted quiz block. *)
Definition quizClick (ev : QuizModule.Event) (v : View) : View :=
  match quizModule v, activeLesson v with
  | Some st, Some l =>
      withQuizModule (Some (QuizModule.step (default [] (quizzes l)) ev st)) v
  | _, _ => v
  end.

End CourseDetail.

(** ** Archived-course listing: [useArchivedCourses], [InactiveCourses.tsx] *)

Module InactiveCourses.

Record State := {
  courses : list Course;
  loading : bool;
  error : option string;
  searchTerm : string;
  isFiltering : bool
}.

Definition initial : State :=
  {| courses := []; loading := true; error := None;
     searchTerm := EmptyString; isFiltering := false |}.

(** [fetchArchivedCourses], lines 28-40, up to the [await]. *)
Definition fetch_start (st : State) : State :=
  {| courses := courses st; loading := true; error := error st;
     searchTerm := searchTerm st; isFiltering := isFiltering st |}.

(** The continuation after the [await]: [try] / [catch] / [finally]. *)
Definition fetch_settle (r : Settled (list Course) AxiosError) (st : State) : State :=
  match r with
  | resolved cs =>
      {| courses := cs; loading := false; error := None;
         searchTerm := searchTerm st; isFiltering := false |}
  | rejected err =>
      {| courses := courses st; loading := false;
         error := Some (Js.or_string (responseMessage err)
                          "Failed to load archived courses");
         searchTerm := searchTerm st; isFiltering := false |}
  end.

(** The hook together with the requests still in flight, each remembered
    by its keyword, oldest first. *)
Record World := { ui : State; pending : list string }.

Definition fetchArchivedCourses (keyword : string) (w : World) : World :=
  {| ui := fetch_start (ui w); pending := pending w ++ [keyword] |}.

Inductive Event :=
| Mounted                       (* the initial-load effect, lines 43-45 *)
| Typed (s : string)            (* [setSearchTerm] *)
| EnterPressed                  (* [handleSearch] with [e.key === 'Enter'] *)
| FiltersCleared                (* [clearFilters] *)
| RetryClicked                  (* [retry] *)
| Settles (i : nat).            (* the [i]-th request in flight settles *)

Definition setSearchTerm (s : string) (st : State) : State :=
  {| courses := courses st; loading := loading st; error := error st;
     searchTerm := s; isFiltering := isFiltering st |}.
Definition setIsFiltering (b : bool) (st : State) : State :=
  {| courses := courses st; loading := loading st; error := error st;
     searchTerm := searchTerm st; isFiltering := b |}.

Section Collaborator.

(** What the listing endpoint answers for a keyword. *)
Variable api : string → Settled (list Course) AxiosError.

Definition step (ev : Event) (w : World) : World :=
  match ev with
  | Mounted => fetchArchivedCourses EmptyString w
  | Typed s => {| ui := setSearchTerm s (ui w); pending := pending w |}
  | EnterPressed =>
      fetchArchivedCourses (searchTerm (ui w))
        {| ui := setIsFiltering true (ui w); pending := pending w |}
  | FiltersCleared =>
      fetchArchivedCourses EmptyString
        {| ui := setSearchTerm EmptyString (ui w); pending := pending w |}
  | RetryClicked => fetchArchivedCourses (searchTerm (ui w)) w
  | Settles i =>
      match pending w !! i with
      | Some keyword =>
          {| ui := fetch_settle (api keyword) (ui w);
             pending := delete i (pending w) |}
      | None => w
      end
  end.

Definition run (evs : list Event) (w : World) : World :=
  foldl (λ w ev, step ev w) w evs.

End Collaborator.

(** Two searches, for [k1] then [k2], whose answers arrive in the
    opposite order. *)
Definition outOfOrder (k1 k2 : string) : list Event :=
  [Typed k1; EnterPressed; Typed k2; EnterPressed; Settles 1; Settles 0].

(** The same two searches, answered in the order they were sent. *)
Definition inOrder (k1 k2 : string) : list Event :=
  [Typed k1; EnterPressed; Typed k2; EnterPressed; Settles 0; Settles 0].

End InactiveCourses.

(** ** Answers delivered during a run of the archive listing *)

(** The answers handed to the hook while the events [evs] run from the
    world [w], in the order of their arrival: one for every [Settles i]
    that finds a request in flight. *)
Fixpoint arrivals (api : string → Settled (list Course) AxiosError)
    (evs : list InactiveCourses.Event) (w : InactiveCourses.World)
    : list (Settled (list Course) AxiosError) :=
  match evs with
  | [] => []
  | ev :: rest =>
      match ev with
      | InactiveCourses.Settles i =>
          match InactiveCourses.pending w !! i with
          | Some keyword => [api keyword]
          | None => []
          end
      | _ => []
      end ++ arrivals api rest (InactiveCourses.step api ev w)
  end.

(** The payload of the last successful answer of a list of answers, or
    [held] when none was successful. *)
Definition lastResolved (held : list Course)
    (rs : list (Settled (list Course) AxiosError)) : list Course :=
  foldl (λ acc r, match r with resolved cs => cs | rejected _ => acc end) held rs.

(** ** Links and images *)

(** [res.url.startsWith('http') ? res.url : `https://${res.url}`], the
    link of a resource row, [CourseDetail.tsx] line 141. *)
Definition resourceHref (res : Resource) : string :=
  if String.prefix "http" (url res) then url res else "https://" +:+ url res.

Definition backslash : Ascii.ascii := Ascii.ascii_of_nat 92.
Definition slash : Ascii.ascii := Ascii.ascii_of_nat 47.

(** [url.replace(/\\/g, '/')]: every backslash becomes a slash. *)
Fixpoint slashes (s : string) : string :=
  match s with
  | EmptyString => EmptyString
  | String c rest =>
      String (if bool_decide (c = backslash) then slash else c) (slashes rest)
  end.

(** [getImageUrl], [CertificatesPage.tsx] lines 21-28. *)
Definition getImageUrl (url : option string) : string :=
  if negb (Js.truthy_string url) then "https://via.placeholder.com/640x360?text=No+Cover"
  else
    let u := default EmptyString url in
    if String.prefix "/uploads" u || String.prefix (String backslash "uploads") u
    then "http://localhost:5000" +:+ slashes u
    else u.

(** ** Listing cards: [processedCourses] in [ActivrCourse.tsx] lines 46-63
    and [InactiveCourses.tsx] lines 61-78 *)

(** [thumbnail: { url: string } | string], possibly missing altogether. *)
Inductive Thumbnail := thumbnailString (s : string) | thumbnailObject (u : option string).

Inductive Listing := activeListing | archiveListing.

Definition placeholder (k : Listing) : string :=
  match k with
  | activeListing => "https://via.placeholder.com/600x400?text=Course"
  | archiveListing => "https://via.placeholder.com/600x400?text=Archive"
  end.

(** [Math.max(1, Math.round(totalLessons * 0.5))].  Half of a natural
    number is exact, and [Math.round] rounds a half upwards, so the
    rounded value is [(n + 1) / 2]. *)
Definition estimatedHours (totalLessons : nat) : nat :=
  Nat.max 1 ((totalLessons + 1) `div` 2).

(** [typeof course.thumbnail === 'string' ? course.thumbnail
     : course.thumbnail?.url || placeholder]. *)
Definition thumbnailUrl (k : Listing) (thumbnail : option Thumbnail) : string :=
  match thumbnail with
  | Some (thumbnailString s) => s
  | Some (thumbnailObject u) => Js.or_string u (placeholder k)
  | None => placeholder k
  end.

Record Derived := {
  derived_lessons : nat;
  derived_duration : string;
  derived_thumbnailUrl : string
}.

Definition derived (k : Listing) (c : Course) (thumbnail : option Thumbnail) : Derived :=
  {| derived_lessons := totalLessons c;
     derived_duration :=
       pretty (estimatedHours (totalLessons c))
       +:+ match k with activeListing => "h 30m" | archiveListing => "h 00m" end;
     derived_thumbnailUrl := thumbnailUrl k thumbnail |}.

(** ** The content area of the archive page, [InactiveCourses.tsx]
    lines 197-236 *)

Module ArchivePage.

(** What the content area shows; the grid has one card per course held
    in the state. *)
Inductive Content :=
| LoadingGrid
| ErrorState (error : string)
| EmptyState
| CourseGrid (cards : list Course).

(** [loading: loading || isFiltering], line 82. *)
Definition loading (st : InactiveCourses.State) : bool :=
  InactiveCourses.loading st || InactiveCourses.isFiltering st.

(** [loading ? ... : error ? ... : courses.length === 0 ? ... : ...]. *)
Definition content (st : InactiveCourses.State) : Content :=
  if loading st then LoadingGrid
  else if Js.truthy_string (InactiveCourses.error st)
       then ErrorState (default EmptyString (InactiveCourses.error st))
  else if bool_decide (length (InactiveCourses.courses st) = 0) then EmptyState
  else CourseGrid (InactiveCourses.courses st).

End ArchivePage.

(** ** The curriculum sidebar, [CourseDetail.tsx] lines 488-567 *)

(** [isActive={activeLesson?._id === lesson._id}]. *)
Definition isActive (activeLesson : option Lesson) (lesson : Lesson) : bool :=
  match activeLesson with
  | Some a => bool_decide (lesson_id a = lesson_id lesson)
  | None => false
  end.

(** The lesson items of the mobile drawer: every lesson of every section. *)
Definition drawerLessons (c : Course) : list Lesson :=
  concat (lessons <$> sections c).

(** The lesson items of the desktop sidebar: the lessons of the sections
    whose id is in the expanded set. *)
Definition sidebarLessons (expanded : gset string) (c : Course) : list Lesson :=
  concat (lessons <$> filter (λ s, section_id s ∈ expanded) (sections c)).

(** ** The stored course: the [totalDuration] virtual of [Course.js],
    lines 146-160 *)

Module CourseModel.

Inductive LessonType := video | text | quiz.

Record LessonDoc := { type : LessonType; videoDuration : Z }.
Record SectionDoc := { lessons : option (list LessonDoc) }.
Record CourseDoc := { sections : option (list SectionDoc) }.

Definition isVideo (t : LessonType) : bool :=
  match t with video => true | _ => false end.

(** The body of the inner [forEach]. *)
Definition addLesson (totalSeconds : Z) (lesson : LessonDoc) : Z :=
  if isVideo (type lesson) && negb (bool_decide (videoDuration lesson = 0%Z))
  then (totalSeconds + videoDuration lesson)%Z
  else totalSeconds.

(** The body of the outer [forEach]. *)
Definition addSection (totalSeconds : Z) (section : SectionDoc) : Z :=
  match lessons section with
  | Some ls => foldl addLesson totalSeconds ls
  | None => totalSeconds
  end.

Definition totalDuration (c : CourseDoc) : Z :=
  match sections c with
  | Some ss => if bool_decide (0 < length ss) then foldl addSection 0%Z ss else 0%Z
  | None => 0%Z
  end.

(** The seconds of the video lessons of a section. *)
Definition videoSeconds (section : SectionDoc) : Z :=
  foldr (λ l acc, (videoDuration l + acc)%Z) 0%Z
    (filter (λ l, isVideo (type l) = true) (default [] (lessons section))).

End CourseModel.

(** ** Consistency of a quiz state with the quiz list it belongs to *)

(** Every recorded answer points at an existing option of an existing
    question, and every submitted question has a recorded answer. *)
Definition answersInRange (quizzes : list Quiz) (st : QuizModule.State) : Prop :=
  ∀ q o, QuizModule.selected st q = Some o →
         ∃ quiz, quizzes !! q = Some quiz ∧ o < length (options quiz).

Definition submittedAnswered (st : QuizModule.State) : Prop :=
  ∀ q, Js.truthy (QuizModule.isSub st q) = true → is_Some (QuizModule.selected st q).

(** ** Sample data used by the examples below *)

Definition plainLesson (id : string) : Lesson :=
  {| lesson_id := id; lesson_title := id; videoKey := None;
     videoDuration := 0; isFree := false; description := None;
     resources := None; codeSnippets := None; quizzes := None |}.

Definition quizLesson (id : string) (qs : list Quiz) : Lesson :=
  {| lesson_id := id; lesson_title := id; videoKey := None;
     videoDuration := 0; isFree := false; description := None;
     resources := None; codeSnippets := None; quizzes := Some qs |}.

Definition choice (t : string) (flag : bool) : QuizOption :=
  {| opt_id := None; text := t; isCorrect := flag |}.

Definition sectionA : Section :=
  {| section_id := "A"; section_title := "Basics";
     lessons := [plainLesson "L1"; plainLesson "L2"] |}.
Definition sectionB : Section :=
  {| section_id := "B"; section_title := "More"; lessons := [] |}.

Definition courseOf (ss : list Section) : Course :=
  {| course_id := "c1"; course_title := "Course"; course_description := "About";
     sections := ss; updatedAt := "2024-01-01" |}.

(** A quiz with two options flagged correct. *)
Definition twoFlagged : Quiz :=
  {| quiz_id := None; question := "Pick one";
     options := [choice "a" true; choice "b" true; choice "c" false] |}.

(** Question 0 answered with option 1 and submitted. *)
Definition answeredSecond : QuizModule.State :=
  QuizModule.run [twoFlagged]
    [QuizModule.ClickOption 0 1; QuizModule.ClickSubmit 0] QuizModule.mount.

(** The position of the first option carrying the correctness flag. *)
Definition firstFlagged (quiz : Quiz) : option nat :=
  fst <$> list_find (λ o, isCorrect o = true) (options quiz).

Definition otherQuiz : Quiz :=
  {| quiz_id := None; question := "Another";
     options := [choice "x" false; choice "y" true] |}.

(** A course whose first two lessons both carry a quiz. *)
Definition quizCourse : Course :=
  courseOf [ {| section_id := "S"; section_title := "Quizzes";
                lessons := [quizLesson "Q1" [twoFlagged];
                            quizLesson "Q2" [otherQuiz];
                            plainLesson "P"] |} ].

(** The course is loaded, then question 0 of lesson Q1 is answered with
    option 1 and submitted. *)
Definition viewLoaded : CourseDetail.View :=
  CourseDetail.load_settle (Some "c1") true (resolved (Some quizCourse))
    (CourseDetail.load_start CourseDetail.initial).

Definition viewAnswered : CourseDetail.View :=
  CourseDetail.quizClick (QuizModule.ClickSubmit 0)
    (CourseDetail.quizClick (QuizModule.ClickOption 0 1) viewLoaded).

(** A listing endpoint that knows two keywords. *)
Definition goCourses : list Course :=
  [ {| course_id := "g1"; course_title := "Go basics"; course_description := "Go";
       sections := []; updatedAt := "2024-01-01" |} ].
Definition rustCourses : list Course :=
  [ {| course_id := "r1"; course_title := "Rust basics"; course_description := "Rust";
       sections := []; updatedAt := "2024-01-01" |} ].

Definition sampleApi (keyword : string) : Settled (list Course) AxiosError :=
  if bool_decide (keyword = "go") then resolved goCourses
  else if bool_decide (keyword = "rust") then resolved rustCourses
  else resolved [].

(** The listing after its initial load has settled. *)
Definition idleWorld : InactiveCourses.World :=
  InactiveCourses.run sampleApi [InactiveCourses.Mounted; InactiveCourses.Settles 0]
    {| InactiveCourses.ui := InactiveCourses.initial; InactiveCourses.pending := [] |}.

(** An error whose payload carries a message. *)
Definition privateCourseError : AxiosError :=
  {| err_message := "Request failed with status code 403";
     response := Some {| data := Some {| message := Some "Course is private" |} |} |}.

Definition networkError : AxiosError :=
  {| err_message := "Network Error"; response := None |}.

(** * Theorems *)

Lemma or0_Z_id n : Js.or0_Z n = n.
Proof. unfold Js.or0_Z. case_bool_decide; congruence. Qed.

Lemma or0_nat_id n : Js.or0_nat n = n.
Proof. unfold Js.or0_nat. case_bool_decide; congruence. Qed.

Lemma sumDuration_from (ls : list Lesson) (a : Z) :
  foldl (λ acc l, (acc + Js.or0_Z (videoDuration l))%Z) a ls = (a + secondsOf ls)%Z.
Proof.
  revert a. induction ls as [|l ls IH]; intros a; simpl.
  - lia.
  - rewrite IH, or0_Z_id. lia.
Qed.

Lemma sumDuration_seconds ls : sumDuration ls = secondsOf ls.
Proof. unfold sumDuration. rewrite sumDuration_from. lia. Qed.

Lemma lesson_reduce_from (ss : list Section) (a : nat) :
  foldl (λ acc sec, acc + length (lessons sec)) a ss = a + lessonArrayLengths ss.
Proof.
  revert a. induction ss as [|s ss IH]; intros a; simpl.
  - unfold lessonArrayLengths. simpl. lia.
  - rewrite IH. unfold lessonArrayLengths. rewrite fmap_cons. simpl. lia.
Qed.

(** C6: [totalDuration] sums the lessons' [videoDuration] values and
    formats the sum as "{h}h {m}m" when the hour part is positive, else
    "{m}m {s}s", a zero total giving "0m"; the empty list gives "0m" and a
    single 3661-second lesson gives "1h 1m". *)
Theorem totalDuration_spec :
  (∀ ls : list Lesson, totalDuration ls = durationLabel_spec (secondsOf ls))
  ∧ totalDuration [] = "0m"
  ∧ totalDuration [videoLesson 3661] = "1h 1m".
Proof.
  split; [|split].
  - intros ls. unfold totalDuration. rewrite sumDuration_seconds.
    unfold formatDuration, durationLabel_spec, show. reflexivity.
  - reflexivity.
  - vm_compute. reflexivity.
Qed.

(** C7: the lesson count of a course is the sum of the lengths of the
    lesson arrays of its sections, and zero when it has no sections. *)
Theorem lessonCount_sum (c : Course) :
  totalLessons c = lessonArrayLengths (sections c)
  ∧ headerLessonCount c = lessonArrayLengths (sections c)
  ∧ (sections c = [] → totalLessons c = 0 ∧ headerLessonCount c = 0).
Proof.
  unfold totalLessons, headerLessonCount.
  rewrite or0_nat_id, lesson_reduce_from. simpl.
  split; [done|]. split; [done|].
  intros ->. done.
Qed.

Lemma lessonCount_sum_example :
  totalLessons (courseOf [sectionA; sectionB]) = 2
  ∧ headerLessonCount (courseOf [sectionA; sectionB]) = 2
  ∧ totalLessons (courseOf []) = 0
  ∧ headerLessonCount (courseOf []) = 0.
Proof.
  destruct (lessonCount_sum (courseOf [sectionA; sectionB])) as (Hlist & Hhead & _).
  destruct (lessonCount_sum (courseOf [])) as (_ & _ & Hzero).
  split; [exact Hlist|]. split; [exact Hhead|].
  exact (Hzero eq_refl).
Defined.

(** ** Navigation *)

Lemma toggleUpdater_elem (sectionId x : string) (prev : gset string) :
  x ∈ CourseDetail.toggleUpdater sectionId prev
  ↔ (x ∈ prev ∧ x ≠ sectionId) ∨ (x = sectionId ∧ sectionId ∉ prev).
Proof.
  unfold CourseDetail.toggleUpdater. case_bool_decide; set_solver.
Qed.

(** C9: [toggleSection] replaces the expanded set of the view by its
    symmetric difference with the given id (the id is removed when present
    and added otherwise, every other id stays as it was), so toggling the
    same id twice gives back the original set. *)
Theorem toggleSection_involutive (sectionId : string) (prev : gset string) (v : CourseDetail.View) :
  CourseDetail.toggleUpdater sectionId prev
    = (prev ∖ {[ sectionId ]}) ∪ ({[ sectionId ]} ∖ prev)
  ∧ CourseDetail.toggleUpdater sectionId (CourseDetail.toggleUpdater sectionId prev) = prev
  ∧ CourseDetail.expandedSections
      (CourseDetail.toggleSection sectionId (CourseDetail.toggleSection sectionId v))
    = CourseDetail.expandedSections v
  ∧ CourseDetail.expandedSections (CourseDetail.toggleSection sectionId v)
    = (CourseDetail.expandedSections v ∖ {[ sectionId ]})
      ∪ ({[ sectionId ]} ∖ CourseDetail.expandedSections v)
  ∧ (∀ x, x ∈ CourseDetail.expandedSections (CourseDetail.toggleSection sectionId v)
          ↔ (x ∈ CourseDetail.expandedSections v ∧ x ≠ sectionId)
            ∨ (x = sectionId ∧ sectionId ∉ CourseDetail.expandedSections v)).
Proof.
  assert (Htwice : ∀ s : gset string,
    CourseDetail.toggleUpdater sectionId (CourseDetail.toggleUpdater sectionId s) = s).
  { intros s. apply set_eq. intros x. rewrite !toggleUpdater_elem.
    destruct (decide (x = sectionId)) as [->|Hne];
      destruct (decide (sectionId ∈ s)); naive_solver. }
  assert (Hsym : ∀ s : gset string,
    CourseDetail.toggleUpdater sectionId s = (s ∖ {[ sectionId ]}) ∪ ({[ sectionId ]} ∖ s)).
  { intros s. apply set_eq. intros x. rewrite toggleUpdater_elem. set_solver. }
  split; [|split; [|split; [|split]]].
  - apply Hsym.
  - apply Htwice.
  - simpl. apply Htwice.
  - simpl. apply Hsym.
  - intros x. simpl. apply toggleUpdater_elem.
Qed.

Lemma render_navigation (v : CourseDetail.View) :
  CourseDetail.expandedSections (CourseDetail.render v) = CourseDetail.expandedSections v
  ∧ CourseDetail.activeLesson (CourseDetail.render v) = CourseDetail.activeLesson v.
Proof. done. Qed.

(** C5: the continuation of a successful load expands exactly the first
    section and, when that section has a lesson, activates its first
    lesson; for a course without sections the expanded set and the active
    lesson stay as they were, which on the first load means empty. *)
Theorem initialize_navigation (id : string) (d : Course) (v : CourseDetail.View) :
  let v' := CourseDetail.load_settle (Some id) true (resolved (Some d)) v in
  (∀ s rest, sections d = s :: rest →
     CourseDetail.expandedSections v' = {[ section_id s ]}
     ∧ (∀ l ls, lessons s = l :: ls → CourseDetail.activeLesson v' = Some l))
  ∧ (sections d = [] →
     (CourseDetail.expandedSections v' = CourseDetail.expandedSections v
      ∧ CourseDetail.activeLesson v' = CourseDetail.activeLesson v)
     ∧ (v = CourseDetail.load_start CourseDetail.initial →
        CourseDetail.expandedSections v' = ∅ ∧ CourseDetail.activeLesson v' = None)).
Proof.
  intros v'. subst v'. unfold CourseDetail.load_settle.
  split.
  - intros s rest Hs.
    destruct (render_navigation
      (CourseDetail.setLoading false
         (CourseDetail.initialize d (CourseDetail.setCourse d v)))) as [-> ->].
    unfold CourseDetail.initialize. rewrite Hs.
    split.
    + destruct (lessons s); reflexivity.
    + intros l ls ->. reflexivity.
  - intros Hnil.
    destruct (render_navigation
      (CourseDetail.setLoading false
         (CourseDetail.initialize d (CourseDetail.setCourse d v)))) as [-> ->].
    unfold CourseDetail.initialize. rewrite Hnil.
    split; [split; reflexivity|]. intros ->. split; reflexivity.
Qed.

Lemma initialize_navigation_example :
  let loaded := CourseDetail.load_settle (Some "c1") true
                  (resolved (Some (courseOf [sectionA; sectionB])))
                  (CourseDetail.load_start CourseDetail.initial) in
  let bare := CourseDetail.load_settle (Some "c1") true
                  (resolved (Some (courseOf [])))
                  (CourseDetail.load_start CourseDetail.initial) in
  (CourseDetail.expandedSections loaded = {[ "A" ]}
   ∧ CourseDetail.activeLesson loaded = Some (plainLesson "L1"))
  ∧ (CourseDetail.expandedSections bare = ∅
     ∧ CourseDetail.activeLesson bare = None).
Proof.
  intros loaded bare. split.
  - destruct (initialize_navigation "c1" (courseOf [sectionA; sectionB])
                (CourseDetail.load_start CourseDetail.initial)) as [Hfirst _].
    destruct (Hfirst sectionA [sectionB] eq_refl) as [Hexp Hact].
    split.
    + exact Hexp.
    + exact (Hact (plainLesson "L1") [plainLesson "L2"] eq_refl).
  - destruct (initialize_navigation "c1" (courseOf [])
                (CourseDetail.load_start CourseDetail.initial)) as [_ Hnone].
    exact (proj2 (Hnone eq_refl) eq_refl).
Defined.

(** ** Quiz engine *)





(** C10: for a submitted question whose recorded option index is past the
    end of the option list, the guarded read yields [undefined], so the
    grade is a falsy value: the question counts as incorrect. *)
Theorem grading_out_of_range (quiz : Quiz) (st : QuizModule.State) (qIdx sel : nat) :
  Js.truthy (QuizModule.isSub st qIdx) = true →
  QuizModule.selected st qIdx = Some sel →
  (length (options quiz) ≤ sel)%nat →
  QuizModule.questionIsCorrect quiz st qIdx = Js.undefined
  ∧ Js.truthy (QuizModule.questionIsCorrect quiz st qIdx) = false.
Proof.
  intros Hs Hsel Hlen.
  assert (QuizModule.questionIsCorrect quiz st qIdx = Js.undefined) as ->; [|done].
  unfold QuizModule.questionIsCorrect, Js.and. rewrite Hs, Hsel. simpl.
  by rewrite (lookup_ge_None_2 _ _ Hlen).
Qed.

Lemma grading_out_of_range_example :
  QuizModule.questionIsCorrect
    {| quiz_id := None; question := "Short"; options := [choice "only" true] |}
    answeredSecond 0 = Js.undefined
  ∧ Js.truthy (QuizModule.questionIsCorrect
      {| quiz_id := None; question := "Short"; options := [choice "only" true] |}
      answeredSecond 0) = false.
Proof.
  apply (grading_out_of_range
    {| quiz_id := None; question := "Short"; options := [choice "only" true] |}
    answeredSecond 0 1).
  - reflexivity.
  - reflexivity.
  - simpl. lia.
Defined.


Lemma answeredSecond_state :
  QuizModule.answers answeredSecond = {[ 0 := 1 ]}
  ∧ QuizModule.submitted answeredSecond = {[ 0 := true ]}.
Proof. split; vm_compute; reflexivity. Qed.

(** C2, as stated, fails: in a quiz whose options 0 and 1 are both flagged,
    a submitted question answered with option 1 (a flagged option that is
    not the first flagged one) is graded correct, is styled as correct and
    shows no cross. *)
Lemma later_flagged_option_grades_correct :
  firstFlagged twoFlagged = Some 0
  ∧ Js.truthy (QuizModule.isSub answeredSecond 0) = true
  ∧ QuizModule.selected answeredSecond 0 = Some 1
  ∧ options twoFlagged !! 1 = Some (choice "b" true)
  ∧ QuizModule.questionIsCorrect twoFlagged answeredSecond 0 = Js.boolean true
  ∧ Js.truthy (QuizModule.questionIsCorrect twoFlagged answeredSecond 0) ≠ false
  ∧ QuizModule.optionStyle (QuizModule.isSub answeredSecond 0)
      (QuizModule.selected answeredSecond 0) (choice "b" true) 1 = QuizModule.emerald
  ∧ QuizModule.showsXCircle (QuizModule.isSub answeredSecond 0)
      (QuizModule.selected answeredSecond 0) (choice "b" true) 1 = false.
Proof. repeat split; try (vm_compute; reflexivity). vm_compute. discriminate. Qed.

(** C2, amended: the grade of a submitted question is the correctness flag
    of the option that was selected, wherever that option stands among the
    flagged ones; a selected flagged option is styled as correct, shows the
    check mark and never the cross. *)
Theorem grade_is_selected_flag (quiz : Quiz) (st : QuizModule.State)
    (qIdx sel : nat) (opt : QuizOption) :
  Js.truthy (QuizModule.isSub st qIdx) = true →
  QuizModule.selected st qIdx = Some sel →
  options quiz !! sel = Some opt →
  QuizModule.questionIsCorrect quiz st qIdx = Js.boolean (isCorrect opt)
  ∧ (isCorrect opt = true →
     QuizModule.optionStyle (QuizModule.isSub st qIdx) (QuizModule.selected st qIdx) opt sel
       = QuizModule.emerald
     ∧ QuizModule.showsCheckCircle (QuizModule.isSub st qIdx) opt = true
     ∧ QuizModule.showsXCircle (QuizModule.isSub st qIdx) (QuizModule.selected st qIdx) opt sel
       = false).
Proof.
  intros Hs Hsel Hopt. split.
  - unfold QuizModule.questionIsCorrect, Js.and, QuizModule.selectedFlag.
    by rewrite Hs, Hsel, Hopt.
  - intros Hflag.
    unfold QuizModule.optionStyle, QuizModule.showsCheckCircle, QuizModule.showsXCircle.
    rewrite Hs, Hflag. simpl. by rewrite andb_false_r.
Qed.

Lemma grade_is_selected_flag_example :
  QuizModule.questionIsCorrect twoFlagged answeredSecond 0 = Js.boolean true
  ∧ QuizModule.optionStyle (QuizModule.isSub answeredSecond 0)
      (QuizModule.selected answeredSecond 0) (choice "b" true) 1 = QuizModule.emerald.
Proof.
  destruct (grade_is_selected_flag twoFlagged answeredSecond 0 1 (choice "b" true)
              eq_refl eq_refl eq_refl) as [Hgrade Hshown].
  split; [exact Hgrade|].
  exact (proj1 (Hshown eq_refl)).
Defined.

(** ** Quiz state across lesson changes *)

Lemma quizModule_render (v : CourseDetail.View) :
  CourseDetail.quizModule (CourseDetail.render v)
  = if CourseDetail.quizBlockRendered v
    then Some (default QuizModule.mount (CourseDetail.quizModule v))
    else None.
Proof. done. Qed.

Lemma render_idempotent (v : CourseDetail.View) :
  CourseDetail.render (CourseDetail.render v) = CourseDetail.render v.
Proof.
  unfold CourseDetail.render at 1 3.
  assert (CourseDetail.quizBlockRendered (CourseDetail.render v)
          = CourseDetail.quizBlockRendered v) as Hsame by done.
  unfold CourseDetail.withQuizModule. simpl. rewrite Hsame.
  by destruct (CourseDetail.quizBlockRendered v).
Qed.

Lemma rendered_without_block (v : CourseDetail.View) :
  CourseDetail.render v = v →
  CourseDetail.hasQuizzes (CourseDetail.activeLesson v) = false →
  CourseDetail.quizModule v = None.
Proof.
  intros Hr Hno. rewrite <- Hr, quizModule_render.
  unfold CourseDetail.quizBlockRendered. rewrite Hno. by rewrite andb_false_r.
Qed.

(** Every transition of the view ends in a rendered view. *)
Lemma transitions_rendered (v : CourseDetail.View) :
  (∀ id mounted r,
     CourseDetail.render (CourseDetail.load_settle id mounted r v)
     = CourseDetail.load_settle id mounted r v)
  ∧ (∀ l, CourseDetail.render (CourseDetail.selectLesson l v) = CourseDetail.selectLesson l v)
  ∧ (∀ s, CourseDetail.render (CourseDetail.toggleSection s v) = CourseDetail.toggleSection s v)
  ∧ (∀ ev, CourseDetail.render v = v →
           CourseDetail.render (CourseDetail.quizClick ev v) = CourseDetail.quizClick ev v).
Proof.
  split; [|split; [|split]].
  - intros. apply render_idempotent.
  - intros. apply render_idempotent.
  - intros. apply render_idempotent.
  - intros ev Hr. unfold CourseDetail.quizClick.
    destruct (CourseDetail.quizModule v) as [st|] eqn:Hq; [|done].
    destruct (CourseDetail.activeLesson v) as [l|] eqn:Hl; [|done].
    assert (Hblock : CourseDetail.quizBlockRendered v = true).
    { pose proof (quizModule_render v) as Hm. rewrite Hr, Hq in Hm.
      by destruct (CourseDetail.quizBlockRendered v). }
    unfold CourseDetail.render, CourseDetail.withQuizModule. simpl.
    assert (CourseDetail.quizBlockRendered
              {| CourseDetail.course := CourseDetail.course v;
                 CourseDetail.loading := CourseDetail.loading v;
                 CourseDetail.error := CourseDetail.error v;
                 CourseDetail.activeLesson := CourseDetail.activeLesson v;
                 CourseDetail.expandedSections := CourseDetail.expandedSections v;
                 CourseDetail.activeTab := CourseDetail.activeTab v;
                 CourseDetail.quizModule :=
                   Some (QuizModule.step (default [] (quizzes l)) ev st) |}
            = CourseDetail.quizBlockRendered v) as -> by done.
    by rewrite Hblock.
Qed.

(** C3: the quiz state is meant to be fresh after every change of the
    active lesson, and the code does not achieve this on a direct switch
    between two lessons that both carry quizzes.  After question 0 of
    lesson Q1 has been answered with option 1 and submitted, selecting the
    different lesson Q2 keeps the recorded answer and the submission:
    question 0 of Q2, never touched, is shown as submitted, its buttons
    are dead and it is graded.  Going through the quiz-less lesson P first
    gives the fresh state. *)
Lemma quiz_state_survives_lesson_switch :
  let switched := CourseDetail.selectLesson (quizLesson "Q2" [otherQuiz]) viewAnswered in
  let carried := {| QuizModule.answers := {[ 0 := 1 ]};
                    QuizModule.submitted := {[ 0 := true ]} |} in
  (CourseDetail.activeLesson viewAnswered = Some (quizLesson "Q1" [twoFlagged])
   ∧ lesson_id (quizLesson "Q1" [twoFlagged]) ≠ lesson_id (quizLesson "Q2" [otherQuiz])
   ∧ CourseDetail.activeLesson switched = Some (quizLesson "Q2" [otherQuiz])
   ∧ CourseDetail.quizModule switched = Some carried
   ∧ CourseDetail.quizModule switched ≠ Some QuizModule.mount)
  ∧ (Js.truthy (QuizModule.isSub carried 0) = true
     ∧ (∀ oIdx, QuizModule.optionButtonLive [otherQuiz] carried 0 oIdx = false)
     ∧ QuizModule.submitButtonLive [otherQuiz] carried 0 = false
     ∧ QuizModule.questionIsCorrect otherQuiz carried 0 = Js.boolean true)
  ∧ CourseDetail.quizModule
      (CourseDetail.selectLesson (quizLesson "Q2" [otherQuiz])
         (CourseDetail.selectLesson (plainLesson "P") viewAnswered))
    = Some QuizModule.mount.
Proof.
  intros switched carried. split; [|split].
  - split; [vm_compute; reflexivity|].
    split; [vm_compute; discriminate|].
    split; [vm_compute; reflexivity|].
    split; [vm_compute; reflexivity|].
    vm_compute. discriminate.
  - split; [vm_compute; reflexivity|].
    split; [|split; vm_compute; reflexivity].
    intros oIdx. unfold QuizModule.optionButtonLive. simpl.
    assert (Js.truthy (QuizModule.isSub carried 0) = true) as -> by (vm_compute; reflexivity).
    by rewrite andb_false_r.
  - vm_compute. reflexivity.
Qed.

(** X24: when the lesson that was active, or the lesson being selected,
    carries no quizzes, the quiz state after the selection is fresh: any
    state present has no answer recorded and nothing submitted, and a
    selected lesson with quizzes shown on the overview tab starts from the
    empty state. *)
Theorem quiz_state_fresh_after_unmount (v : CourseDetail.View) (lesson : Lesson) :
  CourseDetail.render v = v →
  CourseDetail.hasQuizzes (CourseDetail.activeLesson v) = false
    ∨ CourseDetail.hasQuizzes (Some lesson) = false →
  (∀ st, CourseDetail.quizModule (CourseDetail.selectLesson lesson v) = Some st →
         QuizModule.answers st = ∅ ∧ QuizModule.submitted st = ∅)
  ∧ (CourseDetail.hasQuizzes (Some lesson) = false →
     CourseDetail.quizModule (CourseDetail.selectLesson lesson v) = None)
  ∧ (CourseDetail.hasQuizzes (Some lesson) = true →
     CourseDetail.mainViewRendered v = true →
     CourseDetail.activeTab v = CourseDetail.overview →
     CourseDetail.quizModule (CourseDetail.selectLesson lesson v) = Some QuizModule.mount).
Proof.
  intros Hr Hcase.
  unfold CourseDetail.selectLesson. rewrite quizModule_render.
  assert (Hblock : CourseDetail.quizBlockRendered (CourseDetail.setActiveLesson lesson v)
                   = CourseDetail.mainViewRendered v
                     && match CourseDetail.activeTab v with
                        | CourseDetail.overview => true
                        | _ => false
                        end
                     && CourseDetail.hasQuizzes (Some lesson)) by done.
  rewrite Hblock. simpl CourseDetail.quizModule.
  split; [|split].
  - intros st. destruct Hcase as [Hold|Hnew].
    + rewrite (rendered_without_block v Hr Hold). simpl.
      destruct (_ && _ && _); [|done]. by intros [= <-].
    + rewrite Hnew, andb_false_r. done.
  - intros Hnew. by rewrite Hnew, andb_false_r.
  - intros Hnew Hmain Htab. destruct Hcase as [Hold|Hno]; [|congruence].
    rewrite (rendered_without_block v Hr Hold), Hnew, Hmain, Htab. done.
Qed.

Lemma quiz_state_fresh_after_unmount_example :
  let viaPlain := CourseDetail.selectLesson (plainLesson "P") viewAnswered in
  CourseDetail.quizModule viaPlain = None
  ∧ CourseDetail.quizModule (CourseDetail.selectLesson (quizLesson "Q2" [otherQuiz]) viaPlain)
    = Some QuizModule.mount.
Proof.
  intros viaPlain.
  assert (Hr1 : CourseDetail.render viewAnswered = viewAnswered)
    by (vm_compute; reflexivity).
  assert (Hr2 : CourseDetail.render viaPlain = viaPlain)
    by (vm_compute; reflexivity).
  split.
  - destruct (quiz_state_fresh_after_unmount viewAnswered (plainLesson "P")
                Hr1 (or_intror eq_refl)) as (_ & Hnone & _).
    exact (Hnone eq_refl).
  - destruct (quiz_state_fresh_after_unmount viaPlain (quizLesson "Q2" [otherQuiz])
                Hr2 (or_introl eq_refl)) as (_ & _ & Hfresh).
    exact (Hfresh eq_refl eq_refl eq_refl).
Defined.

(** ** Search / fetch cycle *)

Lemma fetch_settle_resolved (cs : list Course) (st : InactiveCourses.State) :
  InactiveCourses.courses (InactiveCourses.fetch_settle (resolved cs) st) = cs
  ∧ InactiveCourses.error (InactiveCourses.fetch_settle (resolved cs) st) = None.
Proof. done. Qed.

(** C1, as stated, fails: with searches for "go" then "rust" both in
    flight and the "rust" answer arriving first, the listing ends up
    holding the "go" result. *)
Lemma stale_response_overwrites_newer :
  let w := InactiveCourses.run sampleApi (InactiveCourses.outOfOrder "go" "rust") idleWorld in
  sampleApi "go" = resolved goCourses
  ∧ sampleApi "rust" = resolved rustCourses
  ∧ InactiveCourses.pending w = []
  ∧ InactiveCourses.courses (InactiveCourses.ui w) = goCourses
  ∧ InactiveCourses.courses (InactiveCourses.ui w) ≠ rustCourses.
Proof.
  intros w. repeat split; try (vm_compute; reflexivity).
  vm_compute. discriminate.
Qed.

Lemma step_courses (api : string → Settled (list Course) AxiosError)
    (ev : InactiveCourses.Event) (w : InactiveCourses.World) :
  InactiveCourses.courses (InactiveCourses.ui (InactiveCourses.step api ev w))
  = lastResolved (InactiveCourses.courses (InactiveCourses.ui w)) (arrivals api [ev] w).
Proof.
  destruct ev as [|s| | | |i]; simpl; try reflexivity.
  destruct (InactiveCourses.pending w !! i) as [k|]; simpl; [|reflexivity].
  by destruct (api k).
Qed.

Lemma run_courses (api : string → Settled (list Course) AxiosError)
    (evs : list InactiveCourses.Event) (w : InactiveCourses.World) :
  InactiveCourses.courses (InactiveCourses.ui (InactiveCourses.run api evs w))
  = lastResolved (InactiveCourses.courses (InactiveCourses.ui w)) (arrivals api evs w).
Proof.
  revert w. induction evs as [|ev evs IH]; intros w; [reflexivity|].
  change (InactiveCourses.run api (ev :: evs) w)
    with (InactiveCourses.run api evs (InactiveCourses.step api ev w)).
  rewrite IH, step_courses.
  assert (Hcons : arrivals api (ev :: evs) w
                  = (arrivals api [ev] w
                     ++ arrivals api evs (InactiveCourses.step api ev w))%list).
  { cbn [arrivals]. by rewrite app_nil_r. }
  rewrite Hcons. unfold lastResolved. by rewrite foldl_app.
Qed.

(** C1, amended: every successful answer replaces [courses] when it
    arrives, however many newer requests are in flight, and none is
    discarded as stale; so after any run the listing holds the payload of
    the successful answer that arrived last.  For searches [k1] then [k2]
    sent while nothing else is in flight, answers arriving in the opposite
    order leave the result for [k1]; answers arriving in sending order
    leave the result for [k2]. *)
Theorem last_arrived_response_wins
    (api : string → Settled (list Course) AxiosError) :
  (∀ (w : InactiveCourses.World) (i : nat) (k : string) (cs : list Course),
     InactiveCourses.pending w !! i = Some k →
     api k = resolved cs →
     InactiveCourses.courses
       (InactiveCourses.ui (InactiveCourses.step api (InactiveCourses.Settles i) w)) = cs)
  ∧ (∀ (evs : list InactiveCourses.Event) (w : InactiveCourses.World),
       InactiveCourses.courses (InactiveCourses.ui (InactiveCourses.run api evs w))
       = lastResolved (InactiveCourses.courses (InactiveCourses.ui w))
           (arrivals api evs w))
  ∧ (∀ (w : InactiveCourses.World) (k1 k2 : string) (cs1 cs2 : list Course),
       InactiveCourses.pending w = [] →
       api k1 = resolved cs1 →
       api k2 = resolved cs2 →
       InactiveCourses.courses
         (InactiveCourses.ui
            (InactiveCourses.run api (InactiveCourses.outOfOrder k1 k2) w)) = cs1
       ∧ InactiveCourses.courses
           (InactiveCourses.ui
              (InactiveCourses.run api (InactiveCourses.inOrder k1 k2) w)) = cs2).
Proof.
  split; [|split].
  - intros w i k cs Hi Hk. simpl. by rewrite Hi, Hk.
  - apply run_courses.
  - intros w k1 k2 cs1 cs2 Hidle H1 H2.
    destruct w as [st pend]. simpl in Hidle. subst pend.
    split; cbn; rewrite ?H1, ?H2; reflexivity.
Qed.

Lemma last_arrived_response_wins_example :
  (InactiveCourses.courses
     (InactiveCourses.ui
        (InactiveCourses.run sampleApi (InactiveCourses.outOfOrder "go" "rust") idleWorld))
   = goCourses
   ∧ InactiveCourses.courses
       (InactiveCourses.ui
          (InactiveCourses.run sampleApi (InactiveCourses.inOrder "go" "rust") idleWorld))
     = rustCourses)
  ∧ InactiveCourses.courses
      (InactiveCourses.ui
         (InactiveCourses.step sampleApi (InactiveCourses.Settles 0)
            {| InactiveCourses.ui := InactiveCourses.ui idleWorld;
               InactiveCourses.pending := ["go"; "rust"; "c"] |}))
    = goCourses.
Proof.
  destruct (last_arrived_response_wins sampleApi) as (Hstep & _ & Hscenario).
  split.
  - apply (Hscenario idleWorld "go" "rust" goCourses rustCourses); reflexivity.
  - apply (Hstep _ 0 "go" goCourses); reflexivity.
Defined.

(** C8, as stated, fails for the single-course load: a rejection whose
    payload carries the message "Course is private" surfaces the fixed
    text "Failed to load course." instead of that message. *)
Lemma course_load_ignores_message :
  let v := CourseDetail.load_settle (Some "c1") true (rejected privateCourseError)
             (CourseDetail.load_start CourseDetail.initial) in
  responseMessage privateCourseError = Some "Course is private"
  ∧ CourseDetail.error v = Some "Failed to load course."
  ∧ CourseDetail.error v ≠ Some "Course is private".
Proof.
  intros v. split; [reflexivity|]. split; [reflexivity|].
  vm_compute. discriminate.
Qed.

(** C8, amended: a failed listing fetch surfaces the collaborator's
    message when it carries a non-empty one and "Failed to load archived
    courses" otherwise, leaving [courses] as it was; a successful listing
    fetch clears the error.  A failed single-course load surfaces the
    fixed text "Failed to load course." whatever the collaborator sent,
    and leaves [course] as it was. *)
Theorem fetch_failure_message (st : InactiveCourses.State) (v : CourseDetail.View)
    (err : AxiosError) (cs : list Course) (id : option string) :
  let failed := InactiveCourses.fetch_settle (rejected err) st in
  let loadFailed := CourseDetail.load_settle id true (rejected err) v in
  (∀ m, responseMessage err = Some m → m ≠ EmptyString →
        InactiveCourses.error failed = Some m)
  ∧ (responseMessage err = None ∨ responseMessage err = Some EmptyString →
     InactiveCourses.error failed = Some "Failed to load archived courses")
  ∧ InactiveCourses.courses failed = InactiveCourses.courses st
  ∧ InactiveCourses.error (InactiveCourses.fetch_settle (resolved cs) st) = None
  ∧ InactiveCourses.courses (InactiveCourses.fetch_settle (resolved cs) st) = cs
  ∧ CourseDetail.error loadFailed = Some "Failed to load course."
  ∧ CourseDetail.course loadFailed = CourseDetail.course v.
Proof.
  intros failed loadFailed. subst failed loadFailed.
  split; [|split; [|split; [|split; [|split; [|split]]]]]; try reflexivity.
  - intros m Hm Hne. simpl. rewrite Hm. simpl.
    by rewrite bool_decide_eq_false_2.
  - intros [Hm|Hm]; simpl; rewrite Hm; reflexivity.
  - by destruct id.
  - by destruct id.
Qed.

Lemma fetch_failure_message_example :
  InactiveCourses.error
    (InactiveCourses.fetch_settle (rejected privateCourseError) InactiveCourses.initial)
    = Some "Course is private"
  ∧ InactiveCourses.error
      (InactiveCourses.fetch_settle (rejected networkError) InactiveCourses.initial)
    = Some "Failed to load archived courses".
Proof.
  split.
  - destruct (fetch_failure_message InactiveCourses.initial CourseDetail.initial
                privateCourseError [] None) as (Hmsg & _).
    apply (Hmsg "Course is private"); [reflexivity | discriminate].
  - destruct (fetch_failure_message InactiveCourses.initial CourseDetail.initial
                networkError [] None) as (_ & Hgeneric & _).
    apply Hgeneric. left. reflexivity.
Defined.

(** * Further properties of the code *)

(** ** Duration labels *)

(** X1: below one hour a positive duration is shown as whole minutes and
    remaining seconds, which add up to the duration. *)
Theorem formatDuration_below_hour (seconds : Z) :
  (0 < seconds < 3600)%Z →
  formatDuration seconds
    = pretty (seconds `div` 60)%Z +:+ "m " +:+ pretty (seconds `mod` 60)%Z +:+ "s"
  ∧ (0 ≤ seconds `div` 60 < 60)%Z
  ∧ (0 ≤ seconds `mod` 60 < 60)%Z
  ∧ (60 * (seconds `div` 60) + seconds `mod` 60 = seconds)%Z.
Proof.
  intros Hs. unfold formatDuration, show.
  rewrite bool_decide_eq_false_2 by lia.
  rewrite (Z.div_small seconds 3600) by lia.
  rewrite bool_decide_eq_false_2 by lia.
  rewrite (Z.rem_small seconds 3600) by lia.
  rewrite (Z.rem_mod_nonneg seconds 60) by lia.
  split; [reflexivity|].
  pose proof (Z.mod_pos_bound seconds 60 ltac:(lia)).
  pose proof (Z.div_mod seconds 60 ltac:(lia)).
  split; [|split]; [|lia|lia].
  split; [apply Z.div_pos; lia|apply Z.div_lt_upper_bound; lia].
Qed.

Lemma formatDuration_below_hour_example :
  formatDuration 125 = "2m 5s".
Proof.
  destruct (formatDuration_below_hour 125 ltac:(lia)) as [Hlabel _].
  rewrite Hlabel. vm_compute. reflexivity.
Defined.

Lemma hour_parts (s : Z) :
  (3600 ≤ s)%Z →
  let s' := (s - s `mod` 60)%Z in
  (3600 ≤ s')%Z ∧ (s' `div` 3600 = s `div` 3600)%Z
  ∧ ((s' `mod` 3600) `div` 60 = (s `mod` 3600) `div` 60)%Z.
Proof.
  intros Hs s'. subst s'.
  Z.div_mod_to_equations. lia.
Qed.

(** X2: from one hour on, the label shows hours and minutes only: the
    remaining seconds are dropped, so two durations within the same minute
    get the same label. *)
Theorem formatDuration_from_hour (seconds : Z) :
  (3600 ≤ seconds)%Z →
  formatDuration seconds
    = pretty (seconds `div` 3600)%Z +:+ "h "
      +:+ pretty ((seconds `mod` 3600) `div` 60)%Z +:+ "m"
  ∧ formatDuration (seconds - seconds `mod` 60) = formatDuration seconds.
Proof.
  intros Hs.
  assert (Hform : ∀ t, (3600 ≤ t)%Z →
    formatDuration t
    = pretty (t `div` 3600)%Z +:+ "h " +:+ pretty ((t `mod` 3600) `div` 60)%Z +:+ "m").
  { intros t Ht. unfold formatDuration, show.
    rewrite bool_decide_eq_false_2 by lia.
    assert (0 < t `div` 3600)%Z by (apply Z.div_str_pos; lia).
    rewrite bool_decide_eq_true_2 by done.
    by rewrite (Z.rem_mod_nonneg t 3600) by lia. }
  destruct (hour_parts seconds Hs) as (Hge & Hh & Hm).
  split; [by apply Hform|].
  rewrite (Hform _ Hge), (Hform _ Hs), Hh, Hm. reflexivity.
Qed.

Lemma formatDuration_from_hour_example :
  formatDuration 3661 = "1h 1m" ∧ formatDuration 3660 = formatDuration 3661.
Proof.
  destruct (formatDuration_from_hour 3661 ltac:(lia)) as [Hlabel Hdrop].
  split; [rewrite Hlabel; vm_compute; reflexivity|exact Hdrop].
Defined.

Lemma secondsOf_perm (ls ls' : list Lesson) :
  ls ≡ₚ ls' → secondsOf ls = secondsOf ls'.
Proof.
  induction 1 as [|l ls1 ls2 _ IH|l1 l2 ls1|ls1 ls2 ls3 _ IH1 _ IH2]; simpl.
  - reflexivity.
  - unfold secondsOf in *. simpl. by rewrite IH.
  - unfold secondsOf. simpl. lia.
  - congruence.
Qed.

(** X3: the duration shown for a section does not depend on the order of
    its lessons, and lessons of zero duration do not change it. *)
Theorem totalDuration_order_free (ls ls' : list Lesson) :
  ls ≡ₚ ls' →
  totalDuration ls = totalDuration ls'
  ∧ totalDuration (filter (λ l, videoDuration l ≠ 0%Z) ls) = totalDuration ls.
Proof.
  intros Hp. unfold totalDuration. rewrite !sumDuration_seconds.
  split; [by rewrite (secondsOf_perm _ _ Hp)|].
  f_equal. clear Hp. induction ls as [|l ls IH]; [done|].
  rewrite filter_cons. case_decide as Hz.
  - unfold secondsOf in *. simpl. by rewrite IH.
  - unfold secondsOf in *. simpl. rewrite IH, Hz. lia.
Qed.

Lemma totalDuration_order_free_example :
  totalDuration [videoLesson 60; videoLesson 0; videoLesson 3600]
  = totalDuration [videoLesson 3600; videoLesson 60; videoLesson 0].
Proof.
  apply (totalDuration_order_free
           [videoLesson 60; videoLesson 0; videoLesson 3600]
           [videoLesson 3600; videoLesson 60; videoLesson 0]).
  apply (Permutation_app_comm [videoLesson 60; videoLesson 0] [videoLesson 3600]).
Defined.

(** ** Listing cards *)

(** X4: the estimated duration of a listed course is never under one
    hour, allows half an hour per lesson rounded up, and does not shrink
    when lessons are added. *)
Theorem estimatedHours_bounds (n m : nat) :
  (1 ≤ estimatedHours n)%nat
  ∧ (n ≤ 2 * estimatedHours n)%nat
  ∧ ((1 ≤ n)%nat → (2 * estimatedHours n ≤ n + 1)%nat)
  ∧ ((n ≤ m)%nat → (estimatedHours n ≤ estimatedHours m)%nat).
Proof.
  unfold estimatedHours.
  pose proof (Nat.div_mod_eq (n + 1) 2) as Hn.
  pose proof (Nat.mod_upper_bound (n + 1) 2 ltac:(lia)) as Hn'.
  pose proof (Nat.div_mod_eq (m + 1) 2) as Hm.
  pose proof (Nat.mod_upper_bound (m + 1) 2 ltac:(lia)) as Hm'.
  repeat split; try lia.
Qed.

Lemma estimatedHours_bounds_example :
  estimatedHours 0 = 1 ∧ estimatedHours 5 = 3
  ∧ (estimatedHours 5 ≤ estimatedHours 6)%nat.
Proof.
  destruct (estimatedHours_bounds 5 6) as (_ & _ & _ & Hmono).
  split; [reflexivity|]. split; [reflexivity|].
  apply Hmono. lia.
Defined.

(** X5: a thumbnail given as a string is used as it is, even when empty;
    a thumbnail object contributes its non-empty url; in every other case
    the placeholder of the listing is used, so that an object or a missing
    thumbnail never yields an empty address. *)
Theorem thumbnailUrl_cases (k : Listing) (thumbnail : option Thumbnail) :
  (∀ s, thumbnail = Some (thumbnailString s) → thumbnailUrl k thumbnail = s)
  ∧ (∀ u, thumbnail = Some (thumbnailObject (Some u)) → u ≠ EmptyString →
          thumbnailUrl k thumbnail = u)
  ∧ ((∀ s, thumbnail ≠ Some (thumbnailString s)) →
     thumbnailUrl k thumbnail ≠ EmptyString
     ∧ (thumbnailUrl k thumbnail = placeholder k
        ∨ thumbnail = Some (thumbnailObject (Some (thumbnailUrl k thumbnail))))).
Proof.
  split; [|split].
  - by intros s ->.
  - intros u -> Hu. simpl. by rewrite bool_decide_eq_false_2.
  - intros Hobj. destruct thumbnail as [[s|[u|]]|]; simpl.
    + by destruct (Hobj s).
    + case_bool_decide as Hu; [|by auto].
      split; [by destruct k|by left].
    + split; [by destruct k|by left].
    + split; [by destruct k|by left].
Qed.

Lemma thumbnailUrl_cases_example :
  thumbnailUrl archiveListing (Some (thumbnailString "y")) = "y"
  ∧ thumbnailUrl archiveListing (Some (thumbnailObject (Some "x"))) = "x"
  ∧ thumbnailUrl archiveListing None ≠ EmptyString.
Proof.
  split; [|split].
  - exact (proj1 (thumbnailUrl_cases archiveListing (Some (thumbnailString "y")))
             "y" eq_refl).
  - apply (proj1 (proj2 (thumbnailUrl_cases archiveListing
                           (Some (thumbnailObject (Some "x"))))) "x" eq_refl).
    discriminate.
  - apply (proj2 (proj2 (thumbnailUrl_cases archiveListing None))).
    intros s. discriminate.
Defined.

(** ** Links and images *)

Lemma prefix_split (p s : string) :
  String.prefix p s = true → ∃ rest, s = p +:+ rest.
Proof.
  revert s. induction p as [|a p IH]; intros s Hp.
  - exists s. reflexivity.
  - destruct s as [|b s]; [discriminate|]. simpl in Hp.
    destruct (Ascii.ascii_dec a b) as [->|]; [|discriminate].
    destruct (IH s Hp) as [rest ->]. by exists rest.
Qed.

Lemma slashes_app (s t : string) : slashes (s +:+ t) = slashes s +:+ slashes t.
Proof. induction s as [|c s IH]; simpl; [done|]. by rewrite IH. Qed.

Lemma slashes_clean (s : string) :
  ∀ c, In c (String.list_ascii_of_string (slashes s)) → c ≠ backslash.
Proof.
  induction s as [|a s IH]; simpl; [done|].
  intros c [<-|Hin]; [|by apply IH].
  case_bool_decide; [discriminate|done].
Qed.

(** X6: the link of a resource always starts with "http": an address that
    already does is kept, any other gets "https://" in front; normalising a
    normalised address changes nothing. *)
Theorem resourceHref_scheme (res : Resource) :
  String.prefix "http" (resourceHref res) = true
  ∧ (resourceHref res = url res ∨ resourceHref res = "https://" +:+ url res)
  ∧ resourceHref {| res_id := res_id res; res_title := res_title res;
                    url := resourceHref res |} = resourceHref res.
Proof.
  assert (Hhttp : String.prefix "http" (resourceHref res) = true).
  { unfold resourceHref. destruct (String.prefix "http" (url res)) eqn:Hp; [done|].
    reflexivity. }
  split; [done|]. split.
  - unfold resourceHref. destruct (String.prefix "http" (url res)); auto.
  - unfold resourceHref at 1. simpl url. by rewrite Hhttp.
Qed.

(** X7: [getImageUrl] never returns an empty address, returns its own
    results unchanged, and turns an upload path, written with slashes or
    backslashes, into an address under "http://localhost:5000/uploads"
    that contains no backslash. *)
Theorem getImageUrl_normalises (url : option string) :
  getImageUrl url ≠ EmptyString
  ∧ getImageUrl (Some (getImageUrl url)) = getImageUrl url
  ∧ (∀ u, url = Some u →
       String.prefix "/uploads" u || String.prefix (String backslash "uploads") u = true →
       String.prefix "http://localhost:5000/uploads" (getImageUrl url) = true
       ∧ ∀ c, In c (String.list_ascii_of_string (getImageUrl url)) → c ≠ backslash).
Proof.
  unfold getImageUrl.
  destruct url as [u|]; simpl.
  2: { split; [done|]. split; [done|]. intros u Hu. discriminate. }
  case_bool_decide as Hempty; simpl.
  { subst u. split; [done|]. split; [done|]. intros u Hu Hup.
    injection Hu as <-. simpl in Hup. discriminate. }
  destruct (String.prefix "/uploads" u || String.prefix (String backslash "uploads") u)
    eqn:Hup.
  - split; [done|]. split; [reflexivity|].
    intros u' Hu _. injection Hu as <-.
    assert (∃ rest, slashes u = "/uploads" +:+ rest) as [rest Hrest].
    { apply orb_true_iff in Hup as [Hp|Hp];
        apply prefix_split in Hp as [rest ->]; rewrite slashes_app;
        exists (slashes rest); reflexivity. }
    split; [rewrite Hrest; by destruct rest|].
    intros c Hin. simpl in Hin.
    repeat (destruct Hin as [<-|Hin]; [discriminate|]).
    by apply (slashes_clean u).
  - split; [done|]. split.
    + rewrite bool_decide_eq_false_2 by done. simpl. by rewrite Hup.
    + intros u' Hu Hcontra. injection Hu as <-. rewrite Hup in Hcontra. discriminate.
Qed.

Lemma getImageUrl_normalises_example :
  String.prefix "http://localhost:5000/uploads"
    (getImageUrl (Some (String backslash "uploads" +:+ String backslash "a.png"))) = true.
Proof.
  destruct (getImageUrl_normalises
              (Some (String backslash "uploads" +:+ String backslash "a.png")))
    as (_ & _ & Hupload).
  exact (proj1 (Hupload _ eq_refl eq_refl)).
Defined.

(** ** The stored course *)

Lemma addLesson_fold (ls : list CourseModel.LessonDoc) (a : Z) :
  foldl CourseModel.addLesson a ls
  = (a + foldr (λ l acc, (CourseModel.videoDuration l + acc)%Z) 0%Z
           (filter (λ l, CourseModel.isVideo (CourseModel.type l) = true) ls))%Z.
Proof.
  revert a. induction ls as [|l ls IH]; intros a; simpl; [lia|].
  rewrite IH, filter_cons. unfold CourseModel.addLesson.
  destruct (CourseModel.isVideo (CourseModel.type l)); simpl.
  - case_bool_decide as Hz; simpl; [rewrite Hz|]; lia.
  - lia.
Qed.

(** X8: the stored course's [totalDuration] is the sum of the durations of
    its lessons of type video; text and quiz lessons, sections without
    lessons and a missing section list contribute nothing. *)
Theorem totalDuration_video_only (c : CourseModel.CourseDoc) :
  CourseModel.totalDuration c
  = foldr (λ s acc, (CourseModel.videoSeconds s + acc)%Z) 0%Z
      (default [] (CourseModel.sections c)).
Proof.
  unfold CourseModel.totalDuration.
  destruct (CourseModel.sections c) as [ss|]; simpl; [|done].
  assert (Hfold : ∀ a, foldl CourseModel.addSection a ss
            = (a + foldr (λ s acc, (CourseModel.videoSeconds s + acc)%Z) 0%Z ss)%Z).
  { induction ss as [|s ss IH]; intros a; simpl; [lia|].
    rewrite IH. unfold CourseModel.addSection, CourseModel.videoSeconds.
    destruct (CourseModel.lessons s) as [ls|]; simpl; [rewrite addLesson_fold|]; lia. }
  case_bool_decide as Hlen.
  - rewrite Hfold. lia.
  - destruct ss; [done|simpl in Hlen; lia].
Qed.

(** ** Quiz engine, continued *)

Lemma step_consistent (quizzes : list Quiz) (ev : QuizModule.Event) (st : QuizModule.State) :
  answersInRange quizzes st ∧ submittedAnswered st →
  answersInRange quizzes (QuizModule.step quizzes ev st)
  ∧ submittedAnswered (QuizModule.step quizzes ev st).
Proof.
  intros [Hr Hs]. destruct ev as [q' o'|q']; simpl.
  - destruct (QuizModule.optionButtonLive quizzes st q' o') eqn:Hlive; [|done].
    unfold QuizModule.optionButtonLive in Hlive.
    destruct (quizzes !! q') as [quiz|] eqn:Hq; [|discriminate].
    apply andb_true_iff in Hlive as [Ho Hns]. apply bool_decide_eq_true in Ho.
    unfold QuizModule.handleSelect. rewrite Hns.
    split.
    + intros q o. unfold QuizModule.selected. simpl.
      destruct (decide (q' = q)) as [<-|Hne].
      * rewrite lookup_insert_eq. intros [= <-]. eauto.
      * rewrite lookup_insert_ne by done. apply Hr.
    + intros q Hsub. unfold QuizModule.selected. simpl.
      destruct (decide (q' = q)) as [<-|Hne].
      * rewrite lookup_insert_eq. eauto.
      * rewrite lookup_insert_ne by done. by apply Hs.
  - destruct (QuizModule.submitButtonLive quizzes st q') eqn:Hlive; [|done].
    unfold QuizModule.submitButtonLive in Hlive.
    apply andb_true_iff in Hlive as [_ Hsel].
    apply negb_true_iff, bool_decide_eq_false in Hsel.
    split; [exact Hr|].
    intros q. unfold QuizModule.submit, QuizModule.isSub, QuizModule.selected. simpl.
    destruct (decide (q' = q)) as [<-|Hne].
    + intros _. unfold QuizModule.selected in Hsel.
      by destruct (QuizModule.answers st !! q').
    + rewrite lookup_insert_ne by done. apply Hs.
Qed.

Lemma run_consistent (quizzes : list Quiz) (evs : list QuizModule.Event) (st : QuizModule.State) :
  answersInRange quizzes st ∧ submittedAnswered st →
  answersInRange quizzes (QuizModule.run quizzes evs st)
  ∧ submittedAnswered (QuizModule.run quizzes evs st).
Proof.
  revert st. induction evs as [|ev evs IH]; intros st Hst; [done|].
  unfold QuizModule.run in *. simpl. apply IH. by apply step_consistent.
Qed.

Lemma mount_consistent (quizzes : list Quiz) :
  answersInRange quizzes QuizModule.mount ∧ submittedAnswered QuizModule.mount.
Proof.
  split.
  - intros q o. unfold QuizModule.selected. simpl. by rewrite lookup_empty.
  - intros q. unfold QuizModule.isSub. simpl. by rewrite lookup_empty.
Qed.

(** X9: in a quiz block used from its mounted state on one quiz list,
    whatever is clicked, a submitted question always has a recorded answer
    that is an option of that question, and its grade is that option's
    correctness flag (a boolean, never [undefined]). *)
Theorem submitted_grade_defined (quizzes : list Quiz) (evs : list QuizModule.Event) (q : nat) :
  let st := QuizModule.run quizzes evs QuizModule.mount in
  Js.truthy (QuizModule.isSub st q) = true →
  ∃ quiz o opt,
    quizzes !! q = Some quiz
    ∧ QuizModule.selected st q = Some o
    ∧ options quiz !! o = Some opt
    ∧ QuizModule.questionIsCorrect quiz st q = Js.boolean (isCorrect opt).
Proof.
  intros st Hsub.
  destruct (run_consistent quizzes evs QuizModule.mount (mount_consistent quizzes))
    as [Hr Hs]. fold st in Hr, Hs.
  destruct (Hs q Hsub) as [o Ho].
  destruct (Hr q o Ho) as (quiz & Hq & Hlt).
  destruct (lookup_lt_is_Some_2 (options quiz) o Hlt) as [opt Hopt].
  exists quiz, o, opt. repeat split; try done.
  unfold QuizModule.questionIsCorrect, Js.and, QuizModule.selectedFlag.
  by rewrite Hsub, Ho, Hopt.
Qed.

Lemma submitted_grade_defined_example :
  ∃ quiz o opt,
    [twoFlagged] !! 0 = Some quiz
    ∧ QuizModule.selected answeredSecond 0 = Some o
    ∧ options quiz !! o = Some opt
    ∧ QuizModule.questionIsCorrect quiz answeredSecond 0 = Js.boolean (isCorrect opt).
Proof.
  exact (submitted_grade_defined [twoFlagged]
           [QuizModule.ClickOption 0 1; QuizModule.ClickSubmit 0] 0 eq_refl).
Defined.

(** X10: until a question is submitted its answer can be changed: of two
    clicks on option buttons of the same question the later one is the
    recorded answer, as if the earlier one had not happened. *)
Theorem last_selection_wins (quizzes : list Quiz) (st : QuizModule.State) (q o1 o2 : nat) :
  QuizModule.optionButtonLive quizzes st q o1 = true →
  QuizModule.optionButtonLive quizzes st q o2 = true →
  QuizModule.run quizzes [QuizModule.ClickOption q o1; QuizModule.ClickOption q o2] st
    = QuizModule.step quizzes (QuizModule.ClickOption q o2) st
  ∧ QuizModule.selected
      (QuizModule.run quizzes [QuizModule.ClickOption q o1; QuizModule.ClickOption q o2] st) q
    = Some o2.
Proof.
  intros H1 H2. unfold QuizModule.run. simpl. rewrite H1.
  assert (Hns : negb (Js.truthy (Js.of_lookup (QuizModule.submitted st !! q))) = true).
  { unfold QuizModule.optionButtonLive in H1.
    destruct (quizzes !! q); [|discriminate].
    by apply andb_true_iff in H1 as [_ Hns]. }
  assert (Hfirst : QuizModule.handleSelect q o1 st
                   = {| QuizModule.answers := <[q := o1]> (QuizModule.answers st);
                        QuizModule.submitted := QuizModule.submitted st |}).
  { unfold QuizModule.handleSelect, QuizModule.isSub. by rewrite Hns. }
  rewrite Hfirst.
  assert (Hlive : QuizModule.optionButtonLive quizzes
                    {| QuizModule.answers := <[q := o1]> (QuizModule.answers st);
                       QuizModule.submitted := QuizModule.submitted st |} q o2 = true)
    by exact H2.
  rewrite Hlive, H2.
  unfold QuizModule.handleSelect, QuizModule.isSub. simpl. rewrite Hns.
  rewrite insert_insert_eq. split; [done|].
  unfold QuizModule.selected. simpl. by rewrite lookup_insert_eq.
Qed.

Lemma last_selection_wins_example :
  QuizModule.selected
    (QuizModule.run [twoFlagged] [QuizModule.ClickOption 0 2; QuizModule.ClickOption 0 0]
       QuizModule.mount) 0 = Some 0.
Proof.
  exact (proj2 (last_selection_wins [twoFlagged] QuizModule.mount 0 2 0 eq_refl eq_refl)).
Defined.

(** X11: questions are independent: a click on an option or on the submit
    button of one question changes neither the recorded answer, nor the
    submission, nor the grade of any other question. *)
Theorem questions_independent (quizzes : list Quiz) (st : QuizModule.State)
    (q q' : nat) (quiz : Quiz) (ev : QuizModule.Event) :
  q ≠ q' →
  (∃ o, ev = QuizModule.ClickOption q' o) ∨ ev = QuizModule.ClickSubmit q' →
  QuizModule.selected (QuizModule.step quizzes ev st) q = QuizModule.selected st q
  ∧ QuizModule.isSub (QuizModule.step quizzes ev st) q = QuizModule.isSub st q
  ∧ QuizModule.questionIsCorrect quiz (QuizModule.step quizzes ev st) q
    = QuizModule.questionIsCorrect quiz st q.
Proof.
  intros Hne Hev.
  assert (QuizModule.selected (QuizModule.step quizzes ev st) q = QuizModule.selected st q
          ∧ QuizModule.isSub (QuizModule.step quizzes ev st) q = QuizModule.isSub st q)
    as [Hsel Hsub].
  { destruct Hev as [[o ->]| ->]; simpl.
    - destruct (QuizModule.optionButtonLive quizzes st q' o); [|done].
      unfold QuizModule.handleSelect.
      destruct (negb (Js.truthy (QuizModule.isSub st q'))); [|done].
      unfold QuizModule.selected, QuizModule.isSub. simpl.
      by rewrite lookup_insert_ne.
    - destruct (QuizModule.submitButtonLive quizzes st q'); [|done].
      unfold QuizModule.selected, QuizModule.isSub, QuizModule.submit. simpl.
      by rewrite lookup_insert_ne. }
  split; [done|]. split; [done|].
  unfold QuizModule.questionIsCorrect. by rewrite Hsel, Hsub.
Qed.

Lemma questions_independent_example :
  QuizModule.selected
    (QuizModule.step [twoFlagged; otherQuiz] (QuizModule.ClickOption 1 0) answeredSecond) 0
  = QuizModule.selected answeredSecond 0.
Proof.
  apply (questions_independent [twoFlagged; otherQuiz] answeredSecond 0 1 twoFlagged
           (QuizModule.ClickOption 1 0)).
  - discriminate.
  - left. exists 0. reflexivity.
Defined.

(** X12: the icons agree with the colours: an option shows the check mark
    exactly when it is styled as correct, and the cross exactly when it is
    styled as wrong. *)
Theorem icons_match_styles (isSub : Js.val) (selected : option nat)
    (opt : QuizOption) (oIdx : nat) :
  (QuizModule.showsCheckCircle isSub opt = true
   ↔ QuizModule.optionStyle isSub selected opt oIdx = QuizModule.emerald)
  ∧ (QuizModule.showsXCircle isSub selected opt oIdx = true
     ↔ QuizModule.optionStyle isSub selected opt oIdx = QuizModule.rose).
Proof.
  unfold QuizModule.showsCheckCircle, QuizModule.showsXCircle, QuizModule.optionStyle.
  destruct (Js.truthy isSub), (isCorrect opt), (Js.strict_eq selected oIdx);
    simpl; split; split; (discriminate || reflexivity).
Qed.

(** X13: before a question is submitted nothing about correctness is
    shown: its option buttons look the same whatever their correctness
    flags are, only the selected one is highlighted, and no icon appears. *)
Theorem nothing_revealed_before_submit (isSub : Js.val) (selected : option nat)
    (opt opt' : QuizOption) (oIdx : nat) :
  Js.truthy isSub = false →
  QuizModule.optionStyle isSub selected opt oIdx
    = QuizModule.optionStyle isSub selected opt' oIdx
  ∧ QuizModule.optionStyle isSub selected opt oIdx
    = (if Js.strict_eq selected oIdx then QuizModule.violet else QuizModule.neutral)
  ∧ QuizModule.showsCheckCircle isSub opt = false
  ∧ QuizModule.showsXCircle isSub selected opt oIdx = false.
Proof.
  intros Hns.
  unfold QuizModule.optionStyle, QuizModule.showsCheckCircle, QuizModule.showsXCircle.
  rewrite Hns. done.
Qed.

Lemma nothing_revealed_before_submit_example :
  QuizModule.optionStyle Js.undefined (Some 1) (choice "a" true) 0
  = QuizModule.optionStyle Js.undefined (Some 1) (choice "a" false) 0.
Proof.
  exact (proj1 (nothing_revealed_before_submit Js.undefined (Some 1)
                  (choice "a" true) (choice "a" false) 0 eq_refl)).
Defined.

(** X14: once a question is submitted every flagged option is shown as
    correct, selected or not, and the cross can only be on the selected
    option, hence on at most one option of the question. *)
Theorem submitted_reveal (isSub : Js.val) (selected : option nat)
    (opt opt' : QuizOption) (i j : nat) :
  Js.truthy isSub = true →
  (isCorrect opt = true →
     QuizModule.optionStyle isSub selected opt i = QuizModule.emerald)
  ∧ (QuizModule.showsXCircle isSub selected opt i = true →
     selected = Some i ∧ isCorrect opt = false)
  ∧ (QuizModule.showsXCircle isSub selected opt i = true →
     QuizModule.showsXCircle isSub selected opt' j = true → i = j).
Proof.
  intros Hs.
  assert (Hcross : ∀ o k, QuizModule.showsXCircle isSub selected o k = true →
                          selected = Some k ∧ isCorrect o = false).
  { intros o k. unfold QuizModule.showsXCircle. rewrite Hs. simpl.
    intros [Heq Hflag]%andb_true_iff. apply negb_true_iff in Hflag.
    split; [|done]. destruct selected as [s|]; [|discriminate].
    simpl in Heq. apply bool_decide_eq_true in Heq. by subst. }
  split; [|split].
  - intros Hflag. unfold QuizModule.optionStyle. by rewrite Hs, Hflag.
  - apply Hcross.
  - intros Hi Hj. destruct (Hcross _ _ Hi) as [Hsi _], (Hcross _ _ Hj) as [Hsj _].
    congruence.
Qed.

Lemma submitted_reveal_example :
  QuizModule.optionStyle (Js.boolean true) (Some 2) (choice "a" true) 0 = QuizModule.emerald
  ∧ (QuizModule.showsXCircle (Js.boolean true) (Some 2) (choice "c" false) 2 = true →
     Some 2 = Some 2 ∧ isCorrect (choice "c" false) = false).
Proof.
  destruct (submitted_reveal (Js.boolean true) (Some 2) (choice "a" true)
              (choice "c" false) 0 2 eq_refl) as (Hgreen & _).
  destruct (submitted_reveal (Js.boolean true) (Some 2) (choice "c" false)
              (choice "c" false) 2 2 eq_refl) as (_ & Hcross & _).
  split; [exact (Hgreen eq_refl)|exact Hcross].
Defined.

Lemma icons_match_styles_example :
  QuizModule.optionStyle (Js.boolean true) (Some 0) (choice "c" false) 0 = QuizModule.rose.
Proof.
  apply (proj2 (icons_match_styles (Js.boolean true) (Some 0) (choice "c" false) 0)).
  reflexivity.
Defined.

(** ** Navigation, continued *)

(** X15: toggling two sections gives the same expanded set in either
    order, and toggling one section never changes whether another one is
    expanded, so several sections can be open at once. *)
Theorem toggle_commutes (a b : string) (prev : gset string) :
  CourseDetail.toggleUpdater a (CourseDetail.toggleUpdater b prev)
    = CourseDetail.toggleUpdater b (CourseDetail.toggleUpdater a prev)
  ∧ (∀ x, x ≠ a → x ∈ CourseDetail.toggleUpdater a prev ↔ x ∈ prev).
Proof.
  split.
  - apply set_eq. intros x. rewrite !toggleUpdater_elem.
    destruct (decide (x = a)), (decide (x = b)), (decide (a ∈ prev)),
      (decide (b ∈ prev)); naive_solver.
  - intros x Hx. rewrite toggleUpdater_elem. naive_solver.
Qed.

Lemma toggle_commutes_example :
  "B" ∈ CourseDetail.toggleUpdater "A" {[ "B" ]}.
Proof.
  apply (proj2 (toggle_commutes "A" "B" {[ "B" ]}) "B"); [discriminate|].
  by apply elem_of_singleton.
Defined.

(** X16: in a rendered view, opening or closing a section changes neither
    the active lesson nor the quiz answers and submissions, and selecting a
    lesson changes neither the expanded sections nor the loaded course. *)
Theorem navigation_independent (v : CourseDetail.View) (sectionId : string) (lesson : Lesson) :
  CourseDetail.render v = v →
  CourseDetail.activeLesson (CourseDetail.toggleSection sectionId v)
    = CourseDetail.activeLesson v
  ∧ CourseDetail.quizModule (CourseDetail.toggleSection sectionId v)
    = CourseDetail.quizModule v
  ∧ CourseDetail.expandedSections (CourseDetail.selectLesson lesson v)
    = CourseDetail.expandedSections v
  ∧ CourseDetail.course (CourseDetail.selectLesson lesson v) = CourseDetail.course v.
Proof.
  intros Hr. split; [done|]. split; [|done].
  transitivity (CourseDetail.quizModule (CourseDetail.render v)); [|by rewrite Hr].
  unfold CourseDetail.toggleSection. rewrite !quizModule_render. reflexivity.
Qed.

Lemma navigation_independent_example :
  CourseDetail.quizModule (CourseDetail.toggleSection "S" viewAnswered)
  = CourseDetail.quizModule viewAnswered.
Proof.
  assert (Hr : CourseDetail.render viewAnswered = viewAnswered)
    by (vm_compute; reflexivity).
  exact (proj1 (proj2 (navigation_independent viewAnswered "S" (plainLesson "P") Hr))).
Defined.

(** X17: a response that arrives after the course view was left (the
    clean-up has cleared [isMounted]) changes nothing, whether it resolves
    or rejects. *)
Theorem unmounted_load_discarded (id : option string)
    (r : Settled (option Course) AxiosError) (v : CourseDetail.View) :
  CourseDetail.render v = v →
  CourseDetail.load_settle id false r v = v.
Proof.
  intros Hr. unfold CourseDetail.load_settle.
  destruct id, r as [[d|]|e]; simpl; exact Hr.
Qed.

Lemma unmounted_load_discarded_example :
  CourseDetail.load_settle (Some "c2") false (resolved (Some (courseOf []))) viewAnswered
  = viewAnswered.
Proof.
  apply unmounted_load_discarded. vm_compute. reflexivity.
Defined.

Lemma initialize_keeps_error (d : Course) (v : CourseDetail.View) :
  CourseDetail.error (CourseDetail.initialize d v) = CourseDetail.error v.
Proof.
  unfold CourseDetail.initialize.
  destruct (sections d) as [|s ?]; [done|]. by destruct (lessons s).
Qed.

(** X18: an error, once set, is never cleared by the load effect: when a
    later load succeeds the course is stored and loading ends, but the
    error is still there and the course view keeps showing the error
    screen. *)
Theorem stale_error_hides_course (id : string) (d : Course) (v : CourseDetail.View) :
  Js.truthy_string (CourseDetail.error v) = true →
  let v' := CourseDetail.load_settle (Some id) true (resolved (Some d))
              (CourseDetail.load_start v) in
  CourseDetail.course v' = Some d
  ∧ CourseDetail.error v' = CourseDetail.error v
  ∧ CourseDetail.mainViewRendered v' = false
  ∧ CourseDetail.loading v' = false.
Proof.
  intros Herr v'. subst v'.
  assert (Hloaded : CourseDetail.loading
            (CourseDetail.load_settle (Some id) true (resolved (Some d))
               (CourseDetail.load_start v)) = false) by done.
  rewrite Hloaded.
  assert (Hkept : CourseDetail.error
            (CourseDetail.load_settle (Some id) true (resolved (Some d))
               (CourseDetail.load_start v)) = CourseDetail.error v).
  { unfold CourseDetail.load_settle. simpl. by rewrite initialize_keeps_error. }
  split; [|split; [exact Hkept|]].
  - unfold CourseDetail.load_settle, CourseDetail.initialize. simpl.
    destruct (sections d) as [|s ?]; [done|]. by destruct (lessons s).
  - split; [|done]. unfold CourseDetail.mainViewRendered. rewrite Hkept, Herr.
    by rewrite andb_false_r.
Qed.

Lemma stale_error_hides_course_example :
  let failed := CourseDetail.load_settle (Some "c0") true (rejected networkError)
                  (CourseDetail.load_start CourseDetail.initial) in
  CourseDetail.mainViewRendered
    (CourseDetail.load_settle (Some "c1") true (resolved (Some quizCourse))
       (CourseDetail.load_start failed)) = false.
Proof.
  intros failed.
  exact (proj1 (proj2 (proj2 (stale_error_hides_course "c1" quizCourse failed eq_refl)))).
Defined.

(** X19: a load without a route id, or one answered with no course, never
    stores a course or touches the navigation: it ends the loading state
    and shows "Failed to load course." resp. "Course not found.". *)
Theorem load_without_course (id : string)
    (r : Settled (option Course) AxiosError) (v : CourseDetail.View) :
  let noId := CourseDetail.load_settle None true r v in
  let noCourse := CourseDetail.load_settle (Some id) true (resolved None) v in
  (CourseDetail.error noId = Some "Failed to load course."
   ∧ CourseDetail.error noCourse = Some "Course not found.")
  ∧ (CourseDetail.course noId = CourseDetail.course v
     ∧ CourseDetail.course noCourse = CourseDetail.course v)
  ∧ (CourseDetail.activeLesson noId = CourseDetail.activeLesson v
     ∧ CourseDetail.activeLesson noCourse = CourseDetail.activeLesson v)
  ∧ (CourseDetail.expandedSections noId = CourseDetail.expandedSections v
     ∧ CourseDetail.expandedSections noCourse = CourseDetail.expandedSections v)
  ∧ (CourseDetail.loading noId = false ∧ CourseDetail.loading noCourse = false)
  ∧ (CourseDetail.mainViewRendered noId = false
     ∧ CourseDetail.mainViewRendered noCourse = false).
Proof.
  intros noId noCourse. subst noId noCourse.
  unfold CourseDetail.load_settle. destruct r as [[d|]|e]; simpl; done.
Qed.

Lemma filter_active_none (l : Lesson) (ls : list Lesson) :
  lesson_id l ∉ lesson_id <$> ls →
  filter (λ x, isActive (Some l) x = true) ls = [].
Proof.
  induction ls as [|x ls IH]; [done|]. rewrite fmap_cons, not_elem_of_cons.
  intros [Hne Hnot]. rewrite filter_cons, (IH Hnot). simpl.
  case_decide as Hact; [|done].
  apply bool_decide_eq_true in Hact. done.
Qed.

(** X20: when the lessons of the course have pairwise distinct ids,
    selecting one of them highlights exactly that lesson in the list of all
    lessons. *)
Theorem one_lesson_highlighted (c : Course) (v : CourseDetail.View) (l : Lesson) :
  NoDup (lesson_id <$> drawerLessons c) →
  l ∈ drawerLessons c →
  filter (λ x, isActive (CourseDetail.activeLesson (CourseDetail.selectLesson l v)) x = true)
    (drawerLessons c) = [l].
Proof.
  change (CourseDetail.activeLesson (CourseDetail.selectLesson l v)) with (Some l).
  generalize (drawerLessons c). intros ls.
  induction ls as [|x ls IH]; intros Hnd Hin.
  - by apply elem_of_nil in Hin.
  - rewrite fmap_cons in Hnd. apply NoDup_cons in Hnd as [Hx Hnd].
    rewrite filter_cons. apply elem_of_cons in Hin as [->|Hin].
    + rewrite (filter_active_none x ls Hx).
      rewrite decide_True; [done|]. simpl. by rewrite bool_decide_eq_true_2.
    + case_decide as Hact.
      * simpl in Hact. apply bool_decide_eq_true in Hact. destruct Hx.
        rewrite <- Hact. by apply list_elem_of_fmap_2.
      * by apply IH.
Qed.

Lemma one_lesson_highlighted_example :
  filter (λ x, isActive (CourseDetail.activeLesson
                           (CourseDetail.selectLesson (plainLesson "P") viewLoaded)) x = true)
    (drawerLessons quizCourse) = [plainLesson "P"].
Proof.
  apply (one_lesson_highlighted quizCourse viewLoaded (plainLesson "P")).
  - vm_compute. repeat (constructor; [set_solver|]). constructor.
  - vm_compute. set_solver.
Defined.

(** X21: after a successful load of a course whose first section has a
    lesson, the active lesson is one of the lessons shown in the sidebar,
    because its section is the expanded one, and it is highlighted. *)
Theorem active_lesson_visible (id : string) (d : Course) (v : CourseDetail.View)
    (s : Section) (rest : list Section) (l : Lesson) (ls : list Lesson) :
  sections d = s :: rest →
  lessons s = l :: ls →
  let v' := CourseDetail.load_settle (Some id) true (resolved (Some d)) v in
  CourseDetail.activeLesson v' = Some l
  ∧ l ∈ sidebarLessons (CourseDetail.expandedSections v') d
  ∧ isActive (CourseDetail.activeLesson v') l = true.
Proof.
  intros Hs Hl v'. subst v'.
  unfold CourseDetail.load_settle, CourseDetail.initialize. simpl.
  rewrite Hs, Hl. simpl.
  split; [done|]. split.
  - unfold sidebarLessons. rewrite Hs, filter_cons.
    rewrite decide_True by set_solver.
    rewrite fmap_cons. simpl. rewrite Hl. set_solver.
  - by rewrite bool_decide_eq_true_2.
Qed.

Lemma active_lesson_visible_example :
  plainLesson "L1"
  ∈ sidebarLessons
      (CourseDetail.expandedSections
         (CourseDetail.load_settle (Some "c1") true
            (resolved (Some (courseOf [sectionA; sectionB])))
            (CourseDetail.load_start CourseDetail.initial)))
      (courseOf [sectionA; sectionB]).
Proof.
  exact (proj1 (proj2 (active_lesson_visible "c1" (courseOf [sectionA; sectionB])
                         (CourseDetail.load_start CourseDetail.initial)
                         sectionA [sectionB] (plainLesson "L1") [plainLesson "L2"]
                         eq_refl eq_refl))).
Defined.

(** ** Archive listing, continued *)

Lemma or_string_nonempty (s : option string) (dflt : string) :
  dflt ≠ EmptyString → Js.or_string s dflt ≠ EmptyString.
Proof.
  intros Hd. unfold Js.or_string. destruct s as [m|]; [|done].
  by case_bool_decide.
Qed.

(** X22: when a listing request fails, the page shows the error panel
    with a non-empty message, even if courses from an earlier answer are
    still held; the next successful answer replaces the panel by the
    course grid, or by the empty state when no course matched. *)
Theorem failure_shows_error_panel (st : InactiveCourses.State) (err : AxiosError)
    (cs : list Course) :
  let failed := InactiveCourses.fetch_settle (rejected err) st in
  (∃ m, m ≠ EmptyString
        ∧ InactiveCourses.error failed = Some m
        ∧ ArchivePage.content failed = ArchivePage.ErrorState m)
  ∧ ArchivePage.content (InactiveCourses.fetch_settle (resolved cs) failed)
    = match cs with
      | [] => ArchivePage.EmptyState
      | _ => ArchivePage.CourseGrid cs
      end.
Proof.
  intros failed. subst failed. split.
  - exists (Js.or_string (responseMessage err) "Failed to load archived courses").
    assert (Hne : Js.or_string (responseMessage err) "Failed to load archived courses"
                  ≠ EmptyString) by (by apply or_string_nonempty).
    split; [done|]. split; [done|].
    unfold ArchivePage.content, ArchivePage.loading. simpl.
    by rewrite bool_decide_eq_false_2.
  - unfold ArchivePage.content, ArchivePage.loading. simpl. by destruct cs.
Qed.

Lemma settled_or_waiting (api : string → Settled (list Course) AxiosError)
    (ev : InactiveCourses.Event) (w : InactiveCourses.World) :
  (InactiveCourses.pending w = [] → ArchivePage.loading (InactiveCourses.ui w) = false) →
  InactiveCourses.pending (InactiveCourses.step api ev w) = [] →
  ArchivePage.loading (InactiveCourses.ui (InactiveCourses.step api ev w)) = false.
Proof.
  intros Hinv. destruct ev as [|s| | | |i]; simpl.
  - intros Hp. by apply app_nil in Hp as [_ ?].
  - exact Hinv.
  - intros Hp. by apply app_nil in Hp as [_ ?].
  - intros Hp. by apply app_nil in Hp as [_ ?].
  - intros Hp. by apply app_nil in Hp as [_ ?].
  - destruct (InactiveCourses.pending w !! i) as [k|] eqn:Hi; [|exact Hinv].
    intros _. simpl. by destruct (api k).
Qed.

(** X23: the loading indicator of the archive page cannot get stuck:
    after the page has mounted, whatever is typed, submitted, cleared or
    retried and in whatever order the answers arrive, once no request is
    in flight the page is no longer shown as loading. *)
Theorem idle_means_not_loading (api : string → Settled (list Course) AxiosError)
    (evs : list InactiveCourses.Event) :
  let w := InactiveCourses.run api (InactiveCourses.Mounted :: evs)
             {| InactiveCourses.ui := InactiveCourses.initial;
                InactiveCourses.pending := [] |} in
  InactiveCourses.pending w = [] →
  ArchivePage.loading (InactiveCourses.ui w) = false.
Proof.
  intros w. subst w. unfold InactiveCourses.run. simpl.
  set (w0 := InactiveCourses.fetchArchivedCourses _ _).
  assert (H0 : InactiveCourses.pending w0 = [] →
               ArchivePage.loading (InactiveCourses.ui w0) = false) by done.
  revert H0. generalize w0. clear w0.
  induction evs as [|ev evs IH]; intros w0 H0; simpl; [done|].
  apply IH. by apply settled_or_waiting.
Qed.

Lemma idle_means_not_loading_example :
  ArchivePage.loading
    (InactiveCourses.ui
       (InactiveCourses.run sampleApi
          (InactiveCourses.Mounted
             :: InactiveCourses.Settles 0 :: InactiveCourses.outOfOrder "go" "rust")
          {| InactiveCourses.ui := InactiveCourses.initial;
             InactiveCourses.pending := [] |})) = false.
Proof.
  apply (idle_means_not_loading sampleApi
           (InactiveCourses.Settles 0 :: InactiveCourses.outOfOrder "go" "rust")).
  reflexivity.
Defined.
